(** * Product catalog service: the routes of [service/routes.py]

    A shallow embedding of the HTTP facade of the product catalog
    (Flask routes over a SQLAlchemy model) and of the collaborators the
    routes call.  The routes are translated from [service/routes.py];
    the model ([service/models.py]), the error handlers and the status
    constants are not part of the sources at hand and are modelled from
    the specification, each under a comment that says so.

    Calls to [app.logger] have no effect on the response nor on the
    store and are left out of the embedding, and so is the index route,
    which serves a static file.  The path segment [<id>] of a route is
    the primary key handed to [Product.find]; it is an integer here. *)

From Stdlib Require Import ZArith NArith String Ascii List Lia.
From Stdlib Require Import DecimalString DecimalN DecimalFacts.
From stdpp Require Import base option list gmap strings pretty.

Set Warnings "-register-all".
Local Open Scope string_scope.
Local Open Scope Z_scope.

(* ================================================================== *)
(** ** JSON values *)

(** What [request.get_json()] returns and what [jsonify] accepts: Python
    [None], [bool], [int], [str], [list] and [dict] with string keys. *)
Inductive json : Type :=
| JNull
| JBool (b : bool)
| JNum (n : Z)
| JStr (s : string)
| JArr (items : list json)
| JObj (members : gmap string json).

(* ================================================================== *)
(** ** Exceptions *)

(** The exceptions that cross the routes: [flask.abort] raises an
    [HTTPException] carrying the status code, the model raises
    [DataValidationError], and subscripting an [Enum] class by an unknown
    name raises [KeyError]. *)
Inductive exception : Type :=
| HTTPException (code : Z) (description : string)
| DataValidationError (message : string)
| KeyError (key : string).

(** Code that may raise: [inl] is a raised exception, [inr] a returned
    value. *)
Definition raising (A : Type) : Type := (exception + A)%type.

Definition raising_bind {A B : Type} (m : raising A) (k : A -> raising B)
  : raising B :=
  match m with
  | inl e => inl e
  | inr a => k a
  end.

Declare Scope raising_scope.
Delimit Scope raising_scope with raising.
Notation "'try!' x <- m ; k" := (raising_bind m (fun x => k))
  (at level 10, x name, m at level 100, k at level 200) : raising_scope.

(* ================================================================== *)
(** ** The category enumeration *)

Module Category.

(** Modelled from the spec: the declaration of the [Category]
    enumeration ([service/models.py]) is missing.  The data model names
    a fixed enumeration of category names and gives CLOTHS, FOOD and
    UNKNOWN as its examples; these three are the members here. *)
Inductive t : Type := UNKNOWN | CLOTHS | FOOD.

#[global] Instance eq_dec : EqDecision t.
Proof. solve_decision. Defined.

(** [category.name] *)
Definition name (c : t) : string :=
  match c with
  | UNKNOWN => "UNKNOWN"
  | CLOTHS => "CLOTHS"
  | FOOD => "FOOD"
  end.

Definition members : list t := [UNKNOWN; CLOTHS; FOOD].

(** The member called [s], if there is one. *)
Definition by_name (s : string) : option t :=
  List.find (fun c => bool_decide (name c = s)) members.

(** [Category[s]]: Python's enumeration lookup by name, which raises
    [KeyError] at a name that is no member's. *)
Definition getitem (s : string) : raising t :=
  match by_name s with
  | Some c => inr c
  | None => inl (KeyError s)
  end.

End Category.

(* ================================================================== *)
(** ** Decimal prices *)

Module Decimal.

(** Modelled from the spec: the price is a decimal monetary value kept
    with exact (non-floating) precision, and its external form is a
    precision-preserving decimal text.  A value is an integer
    coefficient and a number of fraction digits:
    [coefficient * 10 ^ (- places)], so that 12.50 is [1250] with two
    places and differs from 12.5. *)
Record t : Type := mk { coefficient : Z; places : nat }.

#[global] Instance eq_dec : EqDecision t.
Proof. solve_decision. Defined.

(** The decimal digits of a natural number, most significant first,
    and the number a run of digits denotes (leading zeros allowed). *)
Definition digits (n : N) : list ascii :=
  list_ascii_of_string (NilEmpty.string_of_uint (N.to_uint n)).

Definition number (l : list ascii) : option N :=
  N.of_uint <$> NilEmpty.uint_of_string (string_of_list_ascii l).

(** Left padding with zeros up to [k] characters. *)
Definition pad (k : nat) (l : list ascii) : list ascii :=
  (replicate (k - length l) "0"%char ++ l)%list.

(** The digits before and after the first decimal point. *)
Fixpoint split_point (l : list ascii) : list ascii * option (list ascii) :=
  match l with
  | [] => ([], None)
  | a :: r =>
      if Ascii.eqb a "."
      then ([], Some r)
      else let '(ip, fp) := split_point r in (a :: ip, fp)
  end.

(** The text of a non-negative coefficient with [k] fraction digits:
    the integer digits and, when [k] is not zero, a point followed by
    exactly [k] digits. *)
Definition unsigned_text (n : N) (k : nat) : list ascii :=
  let ds := pad (S k) (digits n) in
  let i := (length ds - k)%nat in
  match k with
  | O => ds
  | S _ => (take i ds ++ "."%char :: drop i ds)%list
  end.

(** Reading it back: at least one integer digit and, after a point,
    at least one fraction digit. *)
Definition unsigned_of (l : list ascii) : option (N * nat) :=
  let '(ip, fp) := split_point l in
  match ip, fp with
  | [], _ => None
  | _, Some [] => None
  | _, _ =>
      let f := default [] fp in
      match number (ip ++ f)%list with
      | Some n => Some (n, length f)
      | None => None
      end
  end.

(** [str(price)]: the sign, then the text of the absolute value. *)
Definition str (d : t) : string :=
  let body := unsigned_text (Z.abs_N (coefficient d)) (places d) in
  string_of_list_ascii
    (if coefficient d <? 0 then "-"%char :: body else body).

(** [Decimal(text)], absent when the text is no decimal. *)
Definition of_str (s : string) : option t :=
  match list_ascii_of_string s with
  | [] => None
  | a :: r =>
      if Ascii.eqb a "-"
      then (fun nk => {| coefficient := - Z.of_N nk.1; places := nk.2 |})
             <$> unsigned_of r
      else (fun nk => {| coefficient := Z.of_N nk.1; places := nk.2 |})
             <$> unsigned_of (a :: r)
  end.

End Decimal.

(* ================================================================== *)
(** ** The product model *)

Module Product.

(** Modelled from the spec: the [Product] class ([service/models.py])
    is missing.  The data model gives its fields; [id] is absent until
    the record is persisted. *)
Record t : Type := mk {
  id : option Z;
  name : string;
  description : string;
  price : Decimal.t;
  available : bool;
  category : Category.t
}.

#[global] Instance eq_dec : EqDecision t.
Proof. solve_decision. Defined.

(** Modelled from the spec: [Product()], a transient record.  Its five
    fields hold placeholders; [deserialize] assigns every one of them
    or raises. *)
Definition blank : t :=
  {| id := None; name := ""; description := "";
     price := Decimal.mk 0 0; available := false;
     category := Category.UNKNOWN |}.

(** Modelled from the spec: [serialize()] produces the external
    key-value form of the current field values, the category as its
    enumeration name and the price as decimal text. *)
Definition serialize (self : t) : gmap string json :=
  <["id" := from_option JNum JNull (id self)]>
  (<["name" := JStr (name self)]>
  (<["description" := JStr (description self)]>
  (<["price" := JStr (Decimal.str (price self))]>
  (<["available" := JBool (available self)]>
  (<["category" := JStr (Category.name (category self))]> ∅))))).

(** [data[key]] on the body of a request: a missing key and a body
    that is no mapping both end as [DataValidationError]. *)
Definition item (data : json) (key : string) : raising json :=
  match data with
  | JObj m =>
      match m !! key with
      | Some v => inr v
      | None => inl (DataValidationError ("Invalid product: missing " ++ key))
      end
  | _ => inl (DataValidationError "Invalid product: body is not a mapping")
  end.

Definition as_text (key : string) (v : json) : raising string :=
  match v with
  | JStr s => inr s
  | _ => inl (DataValidationError ("Invalid type for text [" ++ key ++ "]"))
  end.

Definition as_price (v : json) : raising Decimal.t :=
  match v with
  | JStr s =>
      match Decimal.of_str s with
      | Some d => inr d
      | None => inl (DataValidationError ("Invalid decimal [price]: " ++ s))
      end
  | _ => inl (DataValidationError "Invalid type for decimal [price]")
  end.

Definition as_flag (v : json) : raising bool :=
  match v with
  | JBool b => inr b
  | _ => inl (DataValidationError "Invalid type for boolean [available]")
  end.

Definition as_category (v : json) : raising Category.t :=
  match v with
  | JStr s =>
      match Category.by_name s with
      | Some c => inr c
      | None => inl (DataValidationError ("Invalid attribute: " ++ s))
      end
  | _ => inl (DataValidationError "Invalid type for name [category]")
  end.

(** Modelled from the spec: [deserialize(data)] converts the mapping
    with keys name, description, price, available and category into the
    record's fields.  It fails with a validation error when a key is
    missing, when [available] is not a boolean, when [category] is not
    the name of a member of the enumeration, and on a value of the
    wrong type.  The [id] of the record is not read from the mapping. *)
Definition deserialize (self : t) (data : json) : raising t :=
  (try! n <- raising_bind (item data "name") (as_text "name");
   try! d <- raising_bind (item data "description") (as_text "description");
   try! p <- raising_bind (item data "price") as_price;
   try! a <- raising_bind (item data "available") as_flag;
   try! c <- raising_bind (item data "category") as_category;
   inr {| id := id self; name := n; description := d; price := p;
          available := a; category := c |})%raising.

(** Modelled from the spec: the backing table, one row per product in
    storage order, and the next identifier the store hands out. *)
Record table : Type := Table { rows : list t; next_id : Z }.

Definition has_id (i : Z) (p : t) : bool := bool_decide (id p = Some i).

(** Modelled from the spec: [find(id)] is the point lookup by primary
    key, absent when no row has the key. *)
Definition find (i : Z) (tb : table) : option t :=
  List.find (has_id i) (rows tb).

(** Modelled from the spec: [all()] is the full table scan. *)
Definition all (tb : table) : list t := rows tb.

(** Modelled from the spec: the three exact-match filters. *)
Definition find_by_name (n : string) (tb : table) : list t :=
  List.filter (fun p => bool_decide (name p = n)) (rows tb).

Definition find_by_category (c : Category.t) (tb : table) : list t :=
  List.filter (fun p => bool_decide (category p = c)) (rows tb).

Definition find_by_availability (a : bool) (tb : table) : list t :=
  List.filter (fun p => bool_decide (available p = a)) (rows tb).

(** Modelled from the spec: [create()] assigns a new unique id and
    inserts the row; the record comes back with its id. *)
Definition create (self : t) (tb : table) : t * table :=
  let p := {| id := Some (next_id tb); name := name self;
              description := description self; price := price self;
              available := available self; category := category self |} in
  (p, {| rows := (rows tb ++ [p])%list; next_id := next_id tb + 1 |}).

(** Modelled from the spec: [update()] requires the id to be set and
    writes the current field values over the row with that id. *)
Definition update (self : t) (tb : table) : raising table :=
  match id self with
  | None => inl (DataValidationError "Update called with empty ID field")
  | Some i =>
      inr {| rows := List.map (fun r => if has_id i r then self else r) (rows tb);
             next_id := next_id tb |}
  end.

(** Modelled from the spec: [delete()] removes the row with the
    record's id, and nothing when there is none. *)
Definition delete (self : t) (tb : table) : table :=
  {| rows := List.filter (fun r => negb (bool_decide (id r = id self))) (rows tb);
     next_id := next_id tb |}.

(** A table is well formed when every row carries an id below
    [next_id] and no two rows share one: what [create] on the empty
    table and the other operations maintain. *)
Definition row_ids (tb : table) : list (option Z) := List.map id (rows tb).

Definition well_formed (tb : table) : Prop :=
  NoDup (row_ids tb) /\
  Forall (fun p => exists i, id p = Some i /\ i < next_id tb) (rows tb).

Definition empty : table := {| rows := []; next_id := 1 |}.

End Product.

(* ================================================================== *)
(** ** Requests, responses and the effects of a view function *)

Module status.

(** Modelled from the spec: the status constants of
    [service/common/status.py], which is missing; the values are the
    codes the spec lists. *)
Definition HTTP_200_OK : Z := 200.
Definition HTTP_201_CREATED : Z := 201.
Definition HTTP_204_NO_CONTENT : Z := 204.
Definition HTTP_400_BAD_REQUEST : Z := 400.
Definition HTTP_404_NOT_FOUND : Z := 404.
Definition HTTP_415_UNSUPPORTED_MEDIA_TYPE : Z := 415.
Definition HTTP_500_INTERNAL_SERVER_ERROR : Z := 500.

End status.

Module request.

(** Flask's [request] as the routes read it: the headers under their
    canonical field names, the query arguments
    ([request.args.to_dict()]), the JSON value the body parses to,
    absent when the body is no JSON text, and the scheme and host that
    [url_for(..., _external=True)] puts before the path. *)
Record t : Type := mk {
  headers : gmap string string;
  args : gmap string string;
  json_body : option json;
  url_root : string
}.

End request.

Module response.

Inductive content : Type :=
| Json (j : json)
| Text (s : string).

(** What a view function returns: body, status and extra headers. *)
Record t : Type := mk {
  data : content;
  status_code : Z;
  headers : gmap string string
}.

End response.

(** What a view function does besides answering: reading the body of
    the request and calling the store. *)
Inductive event : Type :=
| ParsedBody
| StoreRead
| StoreWrite.

Record world : Type := World {
  db : Product.table;
  journal : list event
}.

(** A view function runs over the world and either returns or raises. *)
Definition view (A : Type) : Type := world -> raising A * world.

Definition ret {A : Type} (a : A) : view A := fun w => (inr a, w).

Definition bind {A B : Type} (m : view A) (k : A -> view B) : view B :=
  fun w =>
    match m w with
    | (inl e, w') => (inl e, w')
    | (inr a, w') => k a w'
    end.

Definition raise {A : Type} (e : exception) : view A := fun w => (inl e, w).

Definition lift {A : Type} (m : raising A) : view A := fun w => (m, w).

Definition record (ev : event) : view unit :=
  fun w => (inr tt, {| db := db w; journal := (journal w ++ [ev])%list |}).

Definition query {A : Type} (q : Product.table -> A) : view A :=
  fun w => (inr (q (db w)),
            {| db := db w; journal := (journal w ++ [StoreRead])%list |}).

Definition commit {A : Type} (op : Product.table -> raising (A * Product.table))
  : view A :=
  fun w =>
    match op (db w) with
    | inl e => (inl e, w)
    | inr (a, tb) =>
        (inr a, {| db := tb; journal := (journal w ++ [StoreWrite])%list |})
    end.

Declare Scope view_scope.
Delimit Scope view_scope with view.
Notation "'do' x <- m ; k" := (bind m (fun x => k))
  (at level 10, x name, m at level 100, k at level 200) : view_scope.
Notation "'run' m ; k" := (bind m (fun _ => k))
  (at level 10, m at level 100, k at level 200) : view_scope.

(** [flask.abort(code, description)] *)
Definition abort {A : Type} (code : Z) (description : string) : view A :=
  raise (HTTPException code description).

(** [request.get_json()]: the body is parsed; Flask aborts with 400
    when it is no JSON text. *)
Definition get_json (request : request.t) : view json :=
  (run record ParsedBody;
   match request.json_body request with
   | Some data => ret data
   | None => abort status.HTTP_400_BAD_REQUEST "Failed to decode JSON object"
   end)%view.

(** [jsonify] of a mapping, of a list of mappings. *)
Definition jsonify (message : gmap string json) : response.content :=
  response.Json (JObj message).

Definition jsonify_list (messages : list (gmap string json)) : response.content :=
  response.Json (JArr (JObj <$> messages)).

(** The text of an id in a message or in a URL, as [str] gives it. *)
Definition id_text (i : option Z) : string :=
  match i with
  | Some n => pretty n
  | None => "None"
  end.

(** [url_for("get_products", id=..., _external=True)]: the external URL
    of the route [/products/<id>]. *)
Definition url_for_get_products (request : request.t) (i : option Z) : string :=
  request.url_root request ++ "/products/" ++ id_text i.

(** [bool(s)] on a Python string: false on the empty string only. *)
Definition py_bool (s : string) : bool :=
  match s with
  | EmptyString => false
  | String _ _ => true
  end.

(** The store operations as the view functions call them. *)
Definition Product_find (i : Z) : view (option Product.t) :=
  query (Product.find i).

Definition Product_all : view (list Product.t) := query Product.all.

Definition Product_find_by_name (n : string) : view (list Product.t) :=
  query (Product.find_by_name n).

Definition Product_find_by_category (c : Category.t) : view (list Product.t) :=
  query (Product.find_by_category c).

Definition Product_find_by_availability (a : bool) : view (list Product.t) :=
  query (Product.find_by_availability a).

Definition Product_create (self : Product.t) : view Product.t :=
  commit (fun tb => inr (Product.create self tb)).

Definition Product_update (self : Product.t) : view unit :=
  commit (fun tb => raising_bind (Product.update self tb) (fun tb' => inr (tt, tb'))).

Definition Product_delete (self : Product.t) : view unit :=
  commit (fun tb => inr (tt, Product.delete self tb)).

(* ================================================================== *)
(** ** The routes of [service/routes.py] *)

(** [GET /health] *)
Definition healthcheck : view response.t :=
  ret (response.mk
         (jsonify (<["status" := JNum 200]> (<["message" := JStr "OK"]> ∅)))
         status.HTTP_200_OK ∅).

(** [check_content_type(content_type)] *)
Definition check_content_type (request : request.t) (content_type : string)
  : view unit :=
  match request.headers request !! "Content-Type" with
  | None =>
      abort status.HTTP_415_UNSUPPORTED_MEDIA_TYPE
            ("Content-Type must be " ++ content_type)
  | Some given =>
      if bool_decide (given = content_type)
      then ret tt
      else abort status.HTTP_415_UNSUPPORTED_MEDIA_TYPE
                 ("Content-Type must be " ++ content_type)
  end.

(** [POST /products] *)
Definition create_products (request : request.t) : view response.t :=
  (run check_content_type request "application/json";
   do data <- get_json request;
   let product := Product.blank in
   do product <- lift (Product.deserialize product data);
   do product <- Product_create product;
   let message := Product.serialize product in
   let location_url := url_for_get_products request (Product.id product) in
   ret (response.mk (jsonify message) status.HTTP_201_CREATED
                    (<["Location" := location_url]> ∅)))%view.

(** [GET /products] *)
Definition list_products (request : request.t) : view response.t :=
  (let arguments := request.args request in
   do products <-
     match arguments !! "name" with
     | Some name => Product_find_by_name name
     | None =>
         match arguments !! "category" with
         | Some name =>
             do category <- lift (Category.getitem name);
             Product_find_by_category category
         | None =>
             match arguments !! "available" with
             | Some text =>
                 let available := py_bool text in
                 Product_find_by_availability available
             | None => Product_all
             end
         end
     end;
   let products_data := Product.serialize <$> products in
   ret (response.mk (jsonify_list products_data) status.HTTP_200_OK ∅))%view.

(** [GET /products/<id>] *)
Definition get_products (i : Z) : view response.t :=
  (do product <- Product_find i;
   match product with
   | None =>
       abort status.HTTP_404_NOT_FOUND
             ("Product with id: " ++ pretty i ++ " does not exist")
   | Some product =>
       let message := Product.serialize product in
       ret (response.mk (jsonify message) status.HTTP_200_OK ∅)
   end)%view.

(** [PUT /products/<id>] *)
Definition update_products (request : request.t) (i : Z) : view response.t :=
  (run check_content_type request "application/json";
   do data <- get_json request;
   do product <- Product_find i;
   match product with
   | None =>
       abort status.HTTP_404_NOT_FOUND
             ("Product with id: " ++ pretty i ++ " does not exist")
   | Some product =>
       do product <- lift (Product.deserialize product data);
       run Product_update product;
       let message := Product.serialize product in
       ret (response.mk (jsonify message) status.HTTP_200_OK ∅)
   end)%view.

(** [DELETE /products/<id>] *)
Definition delete_products (i : Z) : view response.t :=
  (do product <- Product_find i;
   match product with
   | None =>
       abort status.HTTP_404_NOT_FOUND
             ("Product with id: " ++ pretty i ++ " does not exist")
   | Some product =>
       run Product_delete product;
       ret (response.mk (response.Text "") status.HTTP_204_NO_CONTENT ∅)
   end)%view.

(* ================================================================== *)
(** ** From a view function to the response the caller sees *)

(** Modelled from the spec: the error handlers
    ([service/common/error_handlers.py]) are missing.  The error
    taxonomy maps a validation error to 400, an abort to its own status
    (404, 415), and any other failure to 500 with a generic message. *)
Definition error_response (e : exception) : response.t :=
  match e with
  | HTTPException code description =>
      response.mk (response.Text description) code ∅
  | DataValidationError message =>
      response.mk (response.Text message) status.HTTP_400_BAD_REQUEST ∅
  | KeyError _ =>
      response.mk (response.Text "Internal Server Error")
                  status.HTTP_500_INTERNAL_SERVER_ERROR ∅
  end.

(** One request served against the table [tb]: the response, the table
    afterwards and what the view function did on the way. *)
Definition serve (v : view response.t) (tb : Product.table)
  : response.t * Product.table * list event :=
  match v {| db := tb; journal := [] |} with
  | (inr r, w) => (r, db w, journal w)
  | (inl e, w) => (error_response e, db w, journal w)
  end.

Definition answer (v : view response.t) (tb : Product.table) : response.t :=
  (serve v tb).1.1.

Definition table_after (v : view response.t) (tb : Product.table)
  : Product.table :=
  (serve v tb).1.2.

Definition events (v : view response.t) (tb : Product.table) : list event :=
  (serve v tb).2.

(* ================================================================== *)
(** ** The external representation, as the interface section words it *)

(** A request body is valid when it is a JSON object whose [name] and
    [description] are strings, whose [price] is a decimal text, whose
    [available] is a boolean and whose [category] is one of the
    enumeration names.  This follows the description of the external
    interface and does not look at [Product.deserialize]. *)
Definition is_text (v : option json) : bool :=
  match v with Some (JStr _) => true | _ => false end.

Definition is_price_text (v : option json) : bool :=
  match v with
  | Some (JStr s) => bool_decide (is_Some (Decimal.of_str s))
  | _ => false
  end.

Definition is_flag (v : option json) : bool :=
  match v with Some (JBool _) => true | _ => false end.

Definition is_category_name (v : option json) : bool :=
  match v with
  | Some (JStr s) => bool_decide (is_Some (Category.by_name s))
  | _ => false
  end.

Definition valid_payload (data : json) : bool :=
  match data with
  | JObj m =>
      is_text (m !! "name") && is_text (m !! "description")
      && is_price_text (m !! "price") && is_flag (m !! "available")
      && is_category_name (m !! "category")
  | _ => false
  end.

(** The field values of [p] are the ones the body [data] gives: the
    texts and the flag as they stand, the price as the decimal its text
    denotes, the category as the member its text names. *)
Definition carries (data : json) (p : Product.t) : Prop :=
  exists m price_text,
    data = JObj m /\
    m !! "name" = Some (JStr (Product.name p)) /\
    m !! "description" = Some (JStr (Product.description p)) /\
    m !! "price" = Some (JStr price_text) /\
    Decimal.of_str price_text = Some (Product.price p) /\
    m !! "available" = Some (JBool (Product.available p)) /\
    m !! "category" = Some (JStr (Category.name (Product.category p))).

(** The request carries exactly the expected media type. *)
Definition has_content_type (request : request.t) (content_type : string) : Prop :=
  request.headers request !! "Content-Type" = Some content_type.

(** The boolean an availability text stands for: [True] and [true]
    stand for true, every other text, [False], [false] and the empty
    text among them, for false.  This reads the text; it is not the
    route's [py_bool]. *)
Definition says_true (text : string) : bool :=
  bool_decide (text = "True" \/ text = "true").

(** The listing as the specification words it: the first filter present
    among [name], [category] and [available] decides, each by exact
    match, the availability against the boolean its text stands for;
    without a filter every product is listed. *)
Definition selected_by (arguments : gmap string string) (p : Product.t) : bool :=
  match arguments !! "name" with
  | Some n => bool_decide (Product.name p = n)
  | None =>
      match arguments !! "category" with
      | Some c => bool_decide (Category.by_name c = Some (Product.category p))
      | None =>
          match arguments !! "available" with
          | Some text => bool_decide (Product.available p = says_true text)
          | None => true
          end
      end
  end.

(** The response that lists [products]: status 200 and the array of
    their serialized forms, in the order given. *)
Definition listing (products : list Product.t) : response.t :=
  response.mk (jsonify_list (Product.serialize <$> products))
              status.HTTP_200_OK ∅.

(** The category filter decides the listing and its value names no
    member of the enumeration. *)
Definition unknown_category_filter (arguments : gmap string string) : Prop :=
  arguments !! "name" = None /\
  exists c, arguments !! "category" = Some c /\ Category.by_name c = None.

(** The availability filter decides the listing and its value is a
    non-empty text other than [True] and [true]. *)
Definition unsettled_available_filter (arguments : gmap string string) : Prop :=
  arguments !! "name" = None /\ arguments !! "category" = None /\
  exists text, arguments !! "available" = Some text
               /\ text <> "" /\ says_true text = false.

(* ================================================================== *)
(** ** Sample requests and a sample catalog *)

Definition fedora : Product.t :=
  {| Product.id := Some 1; Product.name := "Fedora";
     Product.description := "A red hat"; Product.price := Decimal.mk 1250 2;
     Product.available := true; Product.category := Category.CLOTHS |}.

Definition loaf : Product.t :=
  {| Product.id := Some 2; Product.name := "Loaf";
     Product.description := "Yesterday's bread"; Product.price := Decimal.mk 99 2;
     Product.available := false; Product.category := Category.FOOD |}.

Definition catalog : Product.table :=
  {| Product.rows := [fedora; loaf]; Product.next_id := 3 |}.

(** [GET] with the given query string, no body. *)
Definition get_request (query : list (string * string)) : request.t :=
  {| request.headers := ∅; request.args := list_to_map query;
     request.json_body := None; request.url_root := "http://localhost" |}.

(** A request whose body is [data], sent as [application/json]. *)
Definition json_request (data : json) : request.t :=
  {| request.headers := <["Content-Type" := "application/json"]> ∅;
     request.args := ∅; request.json_body := Some data;
     request.url_root := "http://localhost" |}.

(** The same body sent as [plain/text]. *)
Definition text_request (data : json) : request.t :=
  {| request.headers := <["Content-Type" := "plain/text"]> ∅;
     request.args := ∅; request.json_body := Some data;
     request.url_root := "http://localhost" |}.

(** A request sent as [application/json] whose body is no JSON text. *)
Definition broken_request : request.t :=
  {| request.headers := <["Content-Type" := "application/json"]> ∅;
     request.args := ∅; request.json_body := None;
     request.url_root := "http://localhost" |}.

(** The body of the creation scenario. *)
Definition fedora_payload : json :=
  JObj (<["name" := JStr "Fedora"]>
       (<["description" := JStr "A red hat"]>
       (<["price" := JStr "12.50"]>
       (<["available" := JBool true]>
       (<["category" := JStr "CLOTHS"]> ∅))))).

(** The serialized fedora without its [name]. *)
Definition nameless_payload : json :=
  JObj (delete "name" (Product.serialize fedora)).

(** The serialized fedora with a text where the flag should be. *)
Definition mistyped_payload : json :=
  JObj (<["available" := JStr "wrong type"]> (Product.serialize fedora)).

(** The serialized fedora under another name. *)
Definition renamed_payload : json :=
  JObj (<["name" := JStr "Fedora_test"]> (Product.serialize fedora)).

(* ================================================================== *)
(** ** The view functions together, and the helpers of the test suite *)

(** Every view function of [service/routes.py] but the index page, for
    a request and the id in its path. *)
Definition views (request : request.t) (i : Z) : list (view response.t) :=
  [ healthcheck; create_products request; list_products request;
    get_products i; update_products request i; delete_products i ].

(** [product.id = i] *)
Definition with_id (i : option Z) (p : Product.t) : Product.t :=
  {| Product.id := i; Product.name := Product.name p;
     Product.description := Product.description p;
     Product.price := Product.price p;
     Product.available := Product.available p;
     Product.category := Product.category p |}.

(** The id of a serialized product: an integer, or [None]. *)
Definition json_id (v : json) : option Z :=
  match v with
  | JNum i => Some i
  | _ => None
  end.

(** The calls of the test client: [client.post(BASE_URL, json=data)],
    [client.put(url, json=data)], [client.get(url)] and
    [client.delete(url)] for the URL of a product, [client.get] on the
    base URL with a query string. *)
Definition client_post (data : json) : view response.t :=
  create_products (json_request data).

Definition client_put (i : Z) (data : json) : view response.t :=
  update_products (json_request data) i.

Definition client_get (i : Z) : view response.t := get_products i.

Definition client_delete (i : Z) : view response.t := delete_products i.

Definition client_list (query : list (string * string)) : view response.t :=
  list_products (get_request query).

(** [_create_products(count)] of [tests/test_routes.py]: every product
    the factory makes is posted in its serialized form, the answer must
    be 201, and the product takes the id of the answer.  The products of
    the factory are the list [made], [count] is its length; the result
    is absent when the assertion fails or the answer has no id. *)
Fixpoint _create_products (made : list Product.t) (tb : Product.table)
  : option (list Product.t * Product.table) :=
  match made with
  | [] => Some ([], tb)
  | test_product :: rest =>
      let served := serve (client_post (JObj (Product.serialize test_product))) tb in
      let response := served.1.1 in
      if bool_decide (response.status_code response = status.HTTP_201_CREATED)
      then
        match response.data response with
        | response.Json (JObj new_product) =>
            match new_product !! "id" with
            | Some v =>
                let test_product := with_id (json_id v) test_product in
                match _create_products rest served.1.2 with
                | Some (products, tb') => Some (test_product :: products, tb')
                | None => None
                end
            | None => None
            end
        | _ => None
        end
      else None
  end.

(** [product.name = n] *)
Definition with_name (n : string) (p : Product.t) : Product.t :=
  {| Product.id := Product.id p; Product.name := n;
     Product.description := Product.description p;
     Product.price := Product.price p;
     Product.available := Product.available p;
     Product.category := Product.category p |}.

(** The loop of [test_list_by_name]: each product takes the test name
    and its serialized form is put to the URL of its id; the answers are
    not looked at.  A product without an id has no such URL and leaves
    the store alone. *)
Fixpoint put_renamed (test_name : string) (products : list Product.t)
         (tb : Product.table) : Product.table :=
  match products with
  | [] => tb
  | product :: rest =>
      let product := with_name test_name product in
      let product_data := JObj (Product.serialize product) in
      match Product.id product with
      | Some i =>
          put_renamed test_name rest
                      (table_after (client_put i product_data) tb)
      | None => put_renamed test_name rest tb
      end
  end.

(** The products [made] under consecutive ids from [n] on. *)
Fixpoint numbered (n : Z) (made : list Product.t) : list Product.t :=
  match made with
  | [] => []
  | p :: rest => with_id (Some n) p :: numbered (n + 1) rest
  end.

(** A character that is neither the decimal point nor the sign. *)
Definition plain (a : ascii) : Prop := a <> "."%char /\ a <> "-"%char.

(* ================================================================== *)
(** * Properties *)

(** ** Decimal text *)

Section DecimalText.

Lemma uint_chars_plain (u : Decimal.uint) :
  Forall plain (list_ascii_of_string (NilEmpty.string_of_uint u)).
Proof.
  induction u; simpl; constructor; try assumption; split; discriminate.
Qed.

Lemma digits_plain (n : N) : Forall plain (Decimal.digits n).
Proof. apply uint_chars_plain. Qed.

Lemma pad_plain (k : nat) (l : list ascii) :
  Forall plain l -> Forall plain (Decimal.pad k l).
Proof.
  intros Hl. unfold Decimal.pad. apply Forall_app. split; [|exact Hl].
  apply Forall_replicate. split; discriminate.
Qed.

Lemma pad_length (k : nat) (l : list ascii) :
  (k <= length (Decimal.pad k l))%nat.
Proof. unfold Decimal.pad. rewrite length_app, length_replicate. lia. Qed.

Lemma number_digits (n : N) : Decimal.number (Decimal.digits n) = Some n.
Proof.
  unfold Decimal.number, Decimal.digits.
  rewrite string_of_list_ascii_of_string, NilEmpty.usu. simpl.
  f_equal. apply DecimalN.Unsigned.of_to.
Qed.

Lemma number_leading_zero (l : list ascii) :
  Decimal.number ("0"%char :: l) = Decimal.number l.
Proof.
  unfold Decimal.number. simpl.
  destruct (NilEmpty.uint_of_string (string_of_list_ascii l)); reflexivity.
Qed.

Lemma number_pad (k : nat) (l : list ascii) :
  Decimal.number (Decimal.pad k l) = Decimal.number l.
Proof.
  unfold Decimal.pad. induction (k - length l)%nat as [|j IH]; simpl.
  - reflexivity.
  - rewrite number_leading_zero. exact IH.
Qed.

Lemma split_point_no_point (l : list ascii) :
  Forall plain l -> Decimal.split_point l = (l, None).
Proof.
  induction 1 as [|a l [Ha _] _ IH]; simpl; [reflexivity|].
  destruct (Ascii.eqb_spec a "."); [contradiction|]. rewrite IH. reflexivity.
Qed.

Lemma split_point_at_point (l r : list ascii) :
  Forall plain l -> Decimal.split_point (l ++ "."%char :: r) = (l, Some r).
Proof.
  induction 1 as [|a l [Ha _] _ IH]; simpl; [reflexivity|].
  destruct (Ascii.eqb_spec a "."); [contradiction|]. rewrite IH. reflexivity.
Qed.

(** The text of a coefficient reads back as the coefficient and its
    number of places. *)
Lemma unsigned_of_text (n : N) (k : nat) :
  Decimal.unsigned_of (Decimal.unsigned_text n k) = Some (n, k).
Proof.
  unfold Decimal.unsigned_of, Decimal.unsigned_text.
  set (ds := Decimal.pad (S k) (Decimal.digits n)).
  assert (Hlen : (S k <= length ds)%nat) by apply pad_length.
  assert (Hplain : Forall plain ds) by (apply pad_plain, digits_plain).
  assert (Hnum : Decimal.number ds = Some n)
    by (unfold ds; rewrite number_pad; apply number_digits).
  destruct k as [|k].
  - rewrite split_point_no_point by exact Hplain.
    destruct ds as [|a ds]; [simpl in Hlen; lia|].
    simpl. rewrite app_nil_r, Hnum. reflexivity.
  - rewrite split_point_at_point by (apply Forall_take; exact Hplain).
    set (i := (length ds - S k)%nat).
    assert (Hdrop : length (drop i ds) = S k)
      by (rewrite length_drop; unfold i; lia).
    destruct (take i ds) as [|a front] eqn:Htake.
    + apply (f_equal length) in Htake. rewrite length_take in Htake.
      simpl in Htake. unfold i in Htake. lia.
    + destruct (drop i ds) as [|b back] eqn:Hback; [discriminate|].
      cbn [default from_option id]. rewrite Hdrop, <- Htake, <- Hback, take_drop, Hnum.
      reflexivity.
Qed.

Lemma unsigned_text_head (n : N) (k : nat) :
  exists a r, Decimal.unsigned_text n k = a :: r /\ plain a.
Proof.
  unfold Decimal.unsigned_text.
  set (ds := Decimal.pad (S k) (Decimal.digits n)).
  assert (Hlen : (S k <= length ds)%nat) by apply pad_length.
  assert (Hplain : Forall plain ds) by (apply pad_plain, digits_plain).
  destruct ds as [|a ds]; [simpl in Hlen; lia|].
  apply Forall_cons in Hplain as [Ha _].
  destruct k as [|k].
  - exists a, ds. split; [reflexivity|exact Ha].
  - simpl length. replace (S (length ds) - S k)%nat
      with (S (length ds - S k)) by (simpl in Hlen; lia).
    simpl. eexists _, _. split; [reflexivity|exact Ha].
Qed.

(** Reading the text of a price gives the price back. *)
Lemma of_str_str (d : Decimal.t) : Decimal.of_str (Decimal.str d) = Some d.
Proof.
  destruct d as [c k]. unfold Decimal.of_str, Decimal.str. simpl.
  rewrite list_ascii_of_string_of_list_ascii.
  destruct (Z.ltb_spec c 0) as [Hneg|Hpos].
  - simpl. rewrite unsigned_of_text. simpl. do 2 f_equal. lia.
  - destruct (unsigned_text_head (Z.abs_N c) k) as (a & r & Heq & _ & Ha).
    rewrite Heq. destruct (Ascii.eqb_spec a "-"); [contradiction|].
    rewrite <- Heq, unsigned_of_text. simpl. do 2 f_equal. lia.
Qed.

End DecimalText.

(** ** The model: categories, serialization, validation *)

Section Model.

Lemma by_name_name (c : Category.t) : Category.by_name (Category.name c) = Some c.
Proof. destruct c; reflexivity. Qed.

Lemma by_name_sound (s : string) (c : Category.t) :
  Category.by_name s = Some c -> Category.name c = s.
Proof.
  unfold Category.by_name. intros H. apply find_some in H as [_ H].
  apply bool_decide_eq_true in H. exact H.
Qed.

Lemma serialize_id (p : Product.t) :
  Product.serialize p !! "id" = Some (from_option JNum JNull (Product.id p)).
Proof. reflexivity. Qed.

Lemma serialize_name (p : Product.t) :
  Product.serialize p !! "name" = Some (JStr (Product.name p)).
Proof. reflexivity. Qed.

Lemma serialize_description (p : Product.t) :
  Product.serialize p !! "description" = Some (JStr (Product.description p)).
Proof. reflexivity. Qed.

Lemma serialize_price (p : Product.t) :
  Product.serialize p !! "price" = Some (JStr (Decimal.str (Product.price p))).
Proof. reflexivity. Qed.

Lemma serialize_available (p : Product.t) :
  Product.serialize p !! "available" = Some (JBool (Product.available p)).
Proof. reflexivity. Qed.

Lemma serialize_category (p : Product.t) :
  Product.serialize p !! "category"
  = Some (JStr (Category.name (Product.category p))).
Proof. reflexivity. Qed.

(** [deserialize] never touches the id of the record it fills. *)
Lemma deserialize_id (self p : Product.t) (data : json) :
  Product.deserialize self data = inr p -> Product.id p = Product.id self.
Proof.
  unfold Product.deserialize, raising_bind. intros H.
  repeat match type of H with
         | match ?x with _ => _ end = _ => destruct x; try discriminate
         end.
  injection H as <-. reflexivity.
Qed.

(** [deserialize] does not look at the fields of the record it fills. *)
Lemma deserialize_target (self self' p : Product.t) (data : json) :
  Product.deserialize self data = inr p ->
  Product.deserialize self' data
  = inr (Product.mk (Product.id self') (Product.name p)
           (Product.description p) (Product.price p)
           (Product.available p) (Product.category p)).
Proof.
  unfold Product.deserialize, raising_bind. intros H.
  repeat match type of H with
         | match ?x with _ => _ end = _ => destruct x; try discriminate
         end.
  injection H as <-. reflexivity.
Qed.

(** On a valid body, [deserialize] returns the record that carries the
    body's values. *)
Lemma deserialize_valid (self : Product.t) (data : json) :
  valid_payload data = true ->
  exists p, Product.deserialize self data = inr p
            /\ Product.id p = Product.id self /\ carries data p.
Proof.
  destruct data as [| | | | |m]; try discriminate. simpl.
  rewrite !andb_true_iff. intros [[[[Hn Hd] Hp] Ha] Hc].
  destruct (m !! "name") as [[| | |n| |]|] eqn:En; try discriminate.
  destruct (m !! "description") as [[| | |d| |]|] eqn:Ed; try discriminate.
  destruct (m !! "price") as [[| | |pt| |]|] eqn:Ep; try discriminate.
  destruct (m !! "available") as [[|a| | | |]|] eqn:Ea; try discriminate.
  destruct (m !! "category") as [[| | |ct| |]|] eqn:Ec; try discriminate.
  simpl in Hp, Hc. apply bool_decide_eq_true in Hp as [pr Hpr].
  apply bool_decide_eq_true in Hc as [c Hcat].
  exists (Product.mk (Product.id self) n d pr a c).
  split; [|split; [reflexivity|]].
  - unfold Product.deserialize, raising_bind, Product.item.
    rewrite En, Ed, Ep, Ea, Ec. simpl. rewrite Hpr, Hcat. reflexivity.
  - exists m, pt. simpl. rewrite (by_name_sound _ _ Hcat). tauto.
Qed.

(** On any other body, [deserialize] raises a validation error. *)
Lemma deserialize_invalid (self : Product.t) (data : json) :
  valid_payload data = false ->
  exists message,
    Product.deserialize self data = inl (DataValidationError message).
Proof.
  intros Hbad. unfold Product.deserialize, raising_bind, Product.item.
  destruct data as [| | | | |m]; try (eexists; reflexivity).
  simpl in Hbad.
  destruct (m !! "name") as [[| | |n| |]|]; try (eexists; reflexivity).
  destruct (m !! "description") as [[| | |d| |]|]; try (eexists; reflexivity).
  destruct (m !! "price") as [[| | |pt| |]|]; try (eexists; reflexivity).
  simpl in *. destruct (Decimal.of_str pt); try (eexists; reflexivity).
  destruct (m !! "available") as [[|a| | | |]|]; try (eexists; reflexivity).
  destruct (m !! "category") as [[| | |ct| |]|]; try (eexists; reflexivity).
  simpl in *. destruct (Category.by_name ct); try (eexists; reflexivity).
  rewrite !bool_decide_eq_true_2 in Hbad by eauto. discriminate.
Qed.

End Model.

(** ** The store *)

Section Store.

Implicit Types (tb : Product.table) (p q self : Product.t) (i j : Z).

Lemma has_id_true i p : Product.has_id i p = true <-> Product.id p = Some i.
Proof. unfold Product.has_id. apply bool_decide_eq_true. Qed.

Lemma has_id_false i p : Product.has_id i p = false <-> Product.id p <> Some i.
Proof. unfold Product.has_id. apply bool_decide_eq_false. Qed.

Lemma find_Some i tb p :
  Product.find i tb = Some p -> In p (Product.rows tb) /\ Product.id p = Some i.
Proof.
  unfold Product.find. intros H. apply find_some in H as [Hin Hid].
  split; [exact Hin|]. apply has_id_true. exact Hid.
Qed.

Lemma find_None i tb :
  Product.find i tb = None <->
  (forall p, In p (Product.rows tb) -> Product.id p <> Some i).
Proof.
  unfold Product.find. split.
  - intros H p Hin. apply has_id_false. exact (find_none _ _ H p Hin).
  - intros H. induction (Product.rows tb) as [|q l IH]; simpl; [reflexivity|].
    destruct (Product.has_id i q) eqn:E.
    + apply has_id_true in E. destruct (H q (or_introl eq_refl) E).
    + apply IH. intros p Hin. apply H. right. exact Hin.
Qed.

(** After [delete], no row has the id of the deleted record. *)
Lemma find_delete i p tb :
  Product.id p = Some i -> Product.find i (Product.delete p tb) = None.
Proof.
  intros Hid. apply find_None. intros q Hin. simpl in Hin.
  apply filter_In in Hin as [_ Hq]. apply negb_true_iff in Hq.
  apply bool_decide_eq_false in Hq. congruence.
Qed.

(** [delete] leaves the rows with another id as they were. *)
Lemma find_delete_other i j p tb :
  Product.id p = Some i -> j <> i ->
  Product.find j (Product.delete p tb) = Product.find j tb.
Proof.
  intros Hid Hne. unfold Product.find. simpl.
  induction (Product.rows tb) as [|q l IH]; simpl; [reflexivity|].
  destruct (bool_decide (Product.id q = Product.id p)) eqn:E; simpl.
  - apply bool_decide_eq_true in E.
    assert (Product.has_id j q = false) as ->
        by (apply has_id_false; congruence).
    exact IH.
  - destruct (Product.has_id j q); [reflexivity|exact IH].
Qed.

Lemma find_map_replace i j p (l : list Product.t) :
  Product.id p = Some i ->
  List.find (Product.has_id j)
    (List.map (fun r => if Product.has_id i r then p else r) l)
  = if bool_decide (j = i)
    then match List.find (Product.has_id i) l with
         | Some _ => Some p
         | None => None
         end
    else List.find (Product.has_id j) l.
Proof.
  intros Hid. induction l as [|q l IH]; simpl.
  - destruct (bool_decide (j = i)); reflexivity.
  - rewrite IH. clear IH.
    destruct (bool_decide_reflect (j = i)) as [->|Hne].
    + destruct (Product.has_id i q) eqn:Eq; [|rewrite Eq; reflexivity].
      assert (Product.has_id i p = true) as -> by (apply has_id_true; exact Hid).
      reflexivity.
    + destruct (Product.has_id i q) eqn:Eq; [|reflexivity].
      apply has_id_true in Eq.
      assert (Product.has_id j p = false) as ->
          by (apply has_id_false; congruence).
      assert (Product.has_id j q = false) as ->
          by (apply has_id_false; congruence).
      reflexivity.
Qed.

(** [update] on a record whose id is in the table: the lookup by that
    id gives the record, the other lookups are unchanged. *)
Lemma update_found i p p0 tb :
  Product.find i tb = Some p0 -> Product.id p = Some i ->
  exists tb',
    Product.update p tb = inr tb'
    /\ Product.find i tb' = Some p
    /\ (forall j, j <> i -> Product.find j tb' = Product.find j tb)
    /\ Product.next_id tb' = Product.next_id tb
    /\ length (Product.rows tb') = length (Product.rows tb).
Proof.
  intros Hfound Hid. unfold Product.update. rewrite Hid.
  eexists. split; [reflexivity|]. unfold Product.find in *. simpl.
  repeat split.
  - rewrite (find_map_replace i i p _ Hid), Hfound.
    rewrite bool_decide_eq_true_2 by reflexivity. reflexivity.
  - intros j Hne. rewrite (find_map_replace i j p _ Hid).
    rewrite bool_decide_eq_false_2 by exact Hne. reflexivity.
  - apply length_map.
Qed.

Lemma find_app_None i (l l' : list Product.t) :
  List.find (Product.has_id i) l = None ->
  List.find (Product.has_id i) (l ++ l') = List.find (Product.has_id i) l'.
Proof.
  induction l as [|q l IH]; simpl; [reflexivity|].
  destruct (Product.has_id i q); [discriminate|exact IH].
Qed.

Lemma find_app_other i (l : list Product.t) q :
  Product.has_id i q = false ->
  List.find (Product.has_id i) (l ++ [q]) = List.find (Product.has_id i) l.
Proof.
  intros Hq. induction l as [|r l IH]; simpl.
  - rewrite Hq. reflexivity.
  - destruct (Product.has_id i r); [reflexivity|exact IH].
Qed.

(** In a well-formed table the next id is not in use. *)
Lemma next_id_fresh tb :
  Product.well_formed tb -> Product.find (Product.next_id tb) tb = None.
Proof.
  intros [_ Hbound]. apply find_None. intros p Hin Hid.
  rewrite Forall_forall in Hbound.
  destruct (Hbound p) as (k & Hk & Hlt).
  - apply list_elem_of_In. exact Hin.
  - rewrite Hk in Hid. injection Hid as ->. lia.
Qed.

(** [create] hands out the next id, stores the record under it and
    leaves every other lookup unchanged. *)
Lemma create_found self tb :
  Product.well_formed tb ->
  let '(p, tb') := Product.create self tb in
  Product.id p = Some (Product.next_id tb)
  /\ Product.find (Product.next_id tb) tb' = Some p
  /\ (forall j, j <> Product.next_id tb ->
                Product.find j tb' = Product.find j tb).
Proof.
  intros Hwf. simpl. split; [reflexivity|]. unfold Product.find. simpl. split.
  - rewrite find_app_None by exact (next_id_fresh tb Hwf). simpl.
    unfold Product.has_id. simpl.
    rewrite bool_decide_eq_true_2 by reflexivity. reflexivity.
  - intros j Hne. apply find_app_other. apply has_id_false. simpl. congruence.
Qed.

Lemma well_formed_empty : Product.well_formed Product.empty.
Proof. split; [constructor|constructor]. Qed.

Lemma well_formed_create self tb :
  Product.well_formed tb -> Product.well_formed (Product.create self tb).2.
Proof.
  intros [Hnd Hbound]. unfold Product.well_formed, Product.row_ids in *.
  simpl. split.
  - rewrite map_app. simpl. apply NoDup_app. split; [exact Hnd|]. split.
    + intros o Ho Hnew. apply list_elem_of_singleton in Hnew. subst o.
      apply list_elem_of_In, in_map_iff in Ho as (q & Hq & Hin).
      rewrite Forall_forall in Hbound.
      destruct (Hbound q) as (k & Hk & Hlt); [apply list_elem_of_In; exact Hin|].
      rewrite Hk in Hq. injection Hq as ->. lia.
    + apply NoDup_singleton.
  - apply Forall_app. split.
    + eapply Forall_impl; [exact Hbound|]. simpl.
      intros q (k & Hk & Hlt). exists k. split; [exact Hk|lia].
    + constructor; [|constructor]. simpl. eexists. split; [reflexivity|lia].
Qed.

Lemma well_formed_delete p tb :
  Product.well_formed tb -> Product.well_formed (Product.delete p tb).
Proof.
  intros [Hnd Hbound]. unfold Product.well_formed, Product.row_ids in *.
  simpl. split.
  - clear Hbound. induction (Product.rows tb) as [|q l IH]; simpl; [constructor|].
    apply NoDup_cons in Hnd as [Hq Hl].
    destruct (negb (bool_decide (Product.id q = Product.id p))); simpl.
    + apply NoDup_cons. split; [|exact (IH Hl)].
      intros Hin. apply Hq. apply list_elem_of_In in Hin.
      apply in_map_iff in Hin as (r & Hr & Hrin). apply filter_In in Hrin as [Hrin _].
      apply list_elem_of_In, in_map_iff. exists r. split; assumption.
    + exact (IH Hl).
  - rewrite Forall_forall in *. intros q Hq. apply Hbound.
    apply list_elem_of_In in Hq. apply filter_In in Hq as [Hq _].
    apply list_elem_of_In. exact Hq.
Qed.

Lemma well_formed_update p tb tb' :
  Product.well_formed tb -> Product.update p tb = inr tb' ->
  (exists p0, In p0 (Product.rows tb) /\ Product.id p0 = Product.id p) ->
  Product.well_formed tb'.
Proof.
  intros [Hnd Hbound] Hup (p0 & Hin0 & Hid0). unfold Product.update in Hup.
  destruct (Product.id p) as [i|] eqn:Hid; [|discriminate].
  injection Hup as <-. unfold Product.well_formed, Product.row_ids in *. simpl.
  assert (Hsame : List.map Product.id
                    (List.map (fun r => if Product.has_id i r then p else r)
                              (Product.rows tb))
                  = List.map Product.id (Product.rows tb)).
  { rewrite List.map_map. apply map_ext. intros r.
    destruct (Product.has_id i r) eqn:E; [|reflexivity].
    apply has_id_true in E. congruence. }
  split; [rewrite Hsame; exact Hnd|].
  rewrite Forall_forall in *. intros q Hq.
  apply list_elem_of_In, in_map_iff in Hq as (r & Hr & Hrin).
  destruct (Product.has_id i r) eqn:E.
  - subst q. destruct (Hbound p0) as (k & Hk & Hlt);
      [apply list_elem_of_In; exact Hin0|].
    exists k. split; [congruence|exact Hlt].
  - subst q. apply Hbound. apply list_elem_of_In. exact Hrin.
Qed.

End Store.

(** ** The routes *)

Section Routes.

Implicit Types (tb : Product.table) (w : world) (i : Z).

Lemma check_content_type_accepts (request : request.t) (ct : string) w :
  has_content_type request ct ->
  check_content_type request ct w = (inr tt, w).
Proof.
  unfold has_content_type, check_content_type. intros ->.
  rewrite bool_decide_eq_true_2 by reflexivity. reflexivity.
Qed.

Lemma check_content_type_refuses (request : request.t) (ct : string) w :
  ~ has_content_type request ct ->
  check_content_type request ct w
  = (inl (HTTPException status.HTTP_415_UNSUPPORTED_MEDIA_TYPE
            ("Content-Type must be " ++ ct)), w).
Proof.
  unfold has_content_type, check_content_type. intros Hct.
  destruct (request.headers request !! "Content-Type") as [given|];
    [|reflexivity].
  rewrite bool_decide_eq_false_2 by congruence. reflexivity.
Qed.

(** What [POST /products] does once the media type is accepted. *)
Lemma create_products_run (request : request.t) w :
  has_content_type request "application/json" ->
  create_products request w
  = let w1 := {| db := db w; journal := (journal w ++ [ParsedBody])%list |} in
    match request.json_body request with
    | None =>
        (inl (HTTPException status.HTTP_400_BAD_REQUEST
                "Failed to decode JSON object"), w1)
    | Some data =>
        match Product.deserialize Product.blank data with
        | inl e => (inl e, w1)
        | inr p =>
            let created := Product.create p (db w) in
            (inr (response.mk (jsonify (Product.serialize created.1))
                    status.HTTP_201_CREATED
                    (<["Location" :=
                        url_for_get_products request
                                             (Product.id created.1)]> ∅)),
             {| db := created.2;
                journal := ((journal w ++ [ParsedBody]) ++ [StoreWrite])%list |})
        end
    end.
Proof.
  intros Hct. unfold create_products, bind.
  rewrite (check_content_type_accepts _ _ _ Hct).
  unfold get_json, bind, record, ret, lift, abort, raise. simpl.
  destruct (request.json_body request) as [data|]; [|reflexivity].
  destruct (Product.deserialize _ _); reflexivity.
Qed.

(** What [PUT /products/<id>] does once the media type is accepted. *)
Lemma update_products_run (request : request.t) i w :
  has_content_type request "application/json" ->
  update_products request i w
  = let w1 := {| db := db w; journal := (journal w ++ [ParsedBody])%list |} in
    let w2 := {| db := db w;
                 journal := ((journal w ++ [ParsedBody]) ++ [StoreRead])%list |} in
    match request.json_body request with
    | None =>
        (inl (HTTPException status.HTTP_400_BAD_REQUEST
                "Failed to decode JSON object"), w1)
    | Some data =>
        match Product.find i (db w) with
        | None =>
            (inl (HTTPException status.HTTP_404_NOT_FOUND
                    ("Product with id: " ++ pretty i ++ " does not exist")), w2)
        | Some p0 =>
            match Product.deserialize p0 data with
            | inl e => (inl e, w2)
            | inr p =>
                match Product.update p (db w) with
                | inl e => (inl e, w2)
                | inr tb' =>
                    (inr (response.mk (jsonify (Product.serialize p))
                            status.HTTP_200_OK ∅),
                     {| db := tb';
                        journal := (journal w2 ++ [StoreWrite])%list |})
                end
            end
        end
    end.
Proof.
  intros Hct. unfold update_products, bind.
  rewrite (check_content_type_accepts _ _ _ Hct).
  unfold get_json, bind, record, ret, lift, abort, raise, Product_find, query.
  simpl.
  destruct (request.json_body request) as [data|]; [|reflexivity]. simpl.
  destruct (Product.find i (db w)) as [p0|]; [|reflexivity].
  destruct (Product.deserialize _ _) as [e|p]; [reflexivity|].
  unfold Product_update, commit, raising_bind. simpl.
  destruct (Product.update p (db w)); reflexivity.
Qed.

(** What [DELETE /products/<id>] does. *)
Lemma delete_products_run i w :
  delete_products i w
  = let w1 := {| db := db w; journal := (journal w ++ [StoreRead])%list |} in
    match Product.find i (db w) with
    | None =>
        (inl (HTTPException status.HTTP_404_NOT_FOUND
                ("Product with id: " ++ pretty i ++ " does not exist")), w1)
    | Some p =>
        (inr (response.mk (response.Text "") status.HTTP_204_NO_CONTENT ∅),
         {| db := Product.delete p (db w);
            journal := (journal w1 ++ [StoreWrite])%list |})
    end.
Proof.
  unfold delete_products, bind, Product_find, query. simpl.
  destruct (Product.find i (db w)); reflexivity.
Qed.

Lemma serve_delete_found i (p : Product.t) tb :
  Product.find i tb = Some p ->
  serve (delete_products i) tb
  = (response.mk (response.Text "") status.HTTP_204_NO_CONTENT ∅,
     Product.delete p tb, [StoreRead; StoreWrite]).
Proof.
  intros Hfind. unfold serve. rewrite delete_products_run. simpl.
  rewrite Hfind. reflexivity.
Qed.

Lemma serve_delete_missing i tb :
  Product.find i tb = None ->
  serve (delete_products i) tb
  = (error_response
       (HTTPException status.HTTP_404_NOT_FOUND
          ("Product with id: " ++ pretty i ++ " does not exist")),
     tb, [StoreRead]).
Proof.
  intros Hfind. unfold serve. rewrite delete_products_run. simpl.
  rewrite Hfind. reflexivity.
Qed.

(** What [GET /products/<id>] does. *)
Lemma get_products_run i w :
  get_products i w
  = let w1 := {| db := db w; journal := (journal w ++ [StoreRead])%list |} in
    match Product.find i (db w) with
    | None =>
        (inl (HTTPException status.HTTP_404_NOT_FOUND
                ("Product with id: " ++ pretty i ++ " does not exist")), w1)
    | Some p =>
        (inr (response.mk (jsonify (Product.serialize p))
                status.HTTP_200_OK ∅), w1)
    end.
Proof.
  unfold get_products, bind, Product_find, query. simpl.
  destruct (Product.find i (db w)); reflexivity.
Qed.

End Routes.

(** ** Listing *)

Section Listing.

Implicit Types (tb : Product.table) (w : world) (request : request.t).

(** What [GET /products] does: one read of the store, unless the
    category lookup raises before the store is reached. *)
Lemma list_products_run request w :
  list_products request w
  = let w1 := {| db := db w; journal := (journal w ++ [StoreRead])%list |} in
    match request.args request !! "name" with
    | Some n => (inr (listing (Product.find_by_name n (db w))), w1)
    | None =>
        match request.args request !! "category" with
        | Some c =>
            match Category.by_name c with
            | Some cat =>
                (inr (listing (Product.find_by_category cat (db w))), w1)
            | None => (inl (KeyError c), w)
            end
        | None =>
            match request.args request !! "available" with
            | Some text =>
                (inr (listing
                        (Product.find_by_availability (py_bool text) (db w))),
                 w1)
            | None => (inr (listing (Product.all (db w))), w1)
            end
        end
    end.
Proof.
  unfold list_products, bind. simpl.
  destruct (request.args request !! "name") as [n|]; [reflexivity|].
  destruct (request.args request !! "category") as [c|].
  - unfold lift, Category.getitem. destruct (Category.by_name c); reflexivity.
  - destruct (request.args request !! "available"); reflexivity.
Qed.

(** The category filter of the store and the selection by the name of
    the category agree once the name is resolved. *)
Lemma filter_by_resolved_category (c : string) (cat : Category.t)
      (l : list Product.t) :
  Category.by_name c = Some cat ->
  List.filter (fun p => bool_decide (Product.category p = cat)) l
  = List.filter
      (fun p => bool_decide (Category.by_name c = Some (Product.category p))) l.
Proof.
  intros Hc. apply filter_ext. intros p. rewrite Hc.
  destruct (bool_decide_reflect (Product.category p = cat)) as [->|Hne].
  - rewrite bool_decide_eq_true_2 by reflexivity. reflexivity.
  - rewrite bool_decide_eq_false_2 by congruence. reflexivity.
Qed.

Lemma filter_all_true (l : list Product.t) :
  List.filter (fun _ => true) l = l.
Proof. induction l as [|p l IH]; simpl; [reflexivity|]. rewrite IH. reflexivity. Qed.

Lemma filter_none (f : Product.t -> bool) (l : list Product.t) :
  (forall p, In p l -> f p = false) -> List.filter f l = [].
Proof.
  induction l as [|p l IH]; simpl; intros H; [reflexivity|].
  rewrite (H p (or_introl eq_refl)). apply IH. intros q Hq. apply H. right. exact Hq.
Qed.

(** An unknown category name ends the request in [KeyError], for which
    there is no handler: the caller sees 500. *)
Lemma list_products_unknown_category request tb :
  unknown_category_filter (request.args request) ->
  exists c,
    request.args request !! "category" = Some c
    /\ serve (list_products request) tb
       = (error_response (KeyError c), tb, []).
Proof.
  intros (Hname & c & Hc & Hnone). exists c. split; [exact Hc|].
  unfold serve. rewrite list_products_run, Hname, Hc, Hnone. reflexivity.
Qed.

End Listing.

(** ** The store stays well formed *)

Section Invariant.

Implicit Types (tb : Product.table) (request : request.t) (i : Z).

Lemma content_type_cases request :
  has_content_type request "application/json"
  \/ ~ has_content_type request "application/json".
Proof.
  unfold has_content_type.
  destruct (decide (request.headers request !! "Content-Type"
                    = Some "application/json")); [left|right]; assumption.
Qed.

Lemma create_products_well_formed request tb :
  Product.well_formed tb ->
  Product.well_formed (table_after (create_products request) tb).
Proof.
  intros Hwf. unfold table_after, serve.
  destruct (content_type_cases request) as [Hct|Hct].
  - rewrite (create_products_run request _ Hct). simpl.
    destruct (request.json_body request) as [data|]; [|exact Hwf].
    destruct (Product.deserialize _ _) as [e|p]; simpl; [exact Hwf|].
    exact (well_formed_create p tb Hwf).
  - unfold create_products, bind.
    rewrite (check_content_type_refuses request _ _ Hct). exact Hwf.
Qed.

Lemma update_products_well_formed request i tb :
  Product.well_formed tb ->
  Product.well_formed (table_after (update_products request i) tb).
Proof.
  intros Hwf. unfold table_after, serve.
  destruct (content_type_cases request) as [Hct|Hct].
  - rewrite (update_products_run request i _ Hct). simpl.
    destruct (request.json_body request) as [data|]; [|exact Hwf].
    destruct (Product.find i tb) as [p0|] eqn:Hfind; [|exact Hwf].
    destruct (Product.deserialize _ _) as [e|p] eqn:Hde; [exact Hwf|].
    destruct (Product.update p tb) as [e|tb1] eqn:Hup; [exact Hwf|]. simpl.
    apply (well_formed_update p tb tb1 Hwf Hup).
    exists p0. apply find_Some in Hfind as [Hin Hid]. split; [exact Hin|].
    symmetry. exact (deserialize_id p0 p _ Hde).
  - unfold update_products, bind.
    rewrite (check_content_type_refuses request _ _ Hct). exact Hwf.
Qed.

Lemma delete_products_well_formed i tb :
  Product.well_formed tb ->
  Product.well_formed (table_after (delete_products i) tb).
Proof.
  intros Hwf. unfold table_after, serve. rewrite delete_products_run. simpl.
  destruct (Product.find i tb) as [p|]; [|exact Hwf].
  exact (well_formed_delete p tb Hwf).
Qed.

(** The two reading routes leave the store as it was. *)
Lemma list_products_reads_only request tb :
  table_after (list_products request) tb = tb.
Proof.
  unfold table_after, serve. rewrite list_products_run. simpl.
  destruct (request.args request !! "name"); [reflexivity|].
  destruct (request.args request !! "category") as [c|].
  - destruct (Category.by_name c); reflexivity.
  - destruct (request.args request !! "available"); reflexivity.
Qed.

Lemma get_products_reads_only i tb :
  table_after (get_products i) tb = tb.
Proof.
  unfold table_after, serve. rewrite get_products_run. simpl.
  destruct (Product.find i tb); reflexivity.
Qed.

End Invariant.

(* ================================================================== *)
(** * The claims *)

(** ** Listing and its filters *)

(** C1.  The claim: with [available] present, the flag is the boolean
    the text denotes, so that "False" selects the products whose
    available field is false.  The route takes [bool(text)] instead,
    which is true on every non-empty text.  On the sample catalog, that
    holds one available product (the fedora) and one that is not (the
    loaf), [GET /products?available=False] lists the fedora, where the
    claim asks for the loaf. *)
Theorem list_products_available_False :
  py_bool "False" = true
  /\ answer (list_products (get_request [("available", "False")])) catalog
     = listing [fedora]
  /\ Product.find_by_availability false catalog = [loaf].
Proof. repeat split; reflexivity. Qed.

(** C2.  The claim: an unrecognized category name fails cleanly with an
    error response rather than with an unhandled error.  The route
    subscripts the enumeration, which raises [KeyError]; nothing catches
    it and the caller sees 500.  The sibling path, a [POST] whose body
    names the same category, is answered 400. *)
Theorem list_products_unknown_category_500 :
  list_products (get_request [("category", "NO_SUCH_CATEGORY")])
                {| db := catalog; journal := [] |}
  = (inl (KeyError "NO_SUCH_CATEGORY"), {| db := catalog; journal := [] |})
  /\ response.status_code
       (answer (list_products (get_request [("category", "NO_SUCH_CATEGORY")]))
               catalog)
     = status.HTTP_500_INTERNAL_SERVER_ERROR
  /\ response.status_code
       (answer (create_products
                  (json_request
                     (JObj (<["category" := JStr "NO_SUCH_CATEGORY"]>
                              (Product.serialize fedora)))))
               catalog)
     = status.HTTP_400_BAD_REQUEST.
Proof. repeat split; reflexivity. Qed.

(** C8, as stated, fails at two requests.  Where the deciding filter is
    a category name that is no member of the enumeration, the answer is
    500, not 200 with an array.  Where it is the availability text
    [false], the answer lists the available product, not the one the
    filter selects. *)
Lemma list_products_not_always_200 :
  response.status_code
    (answer (list_products (get_request [("category", "NOT_A_CATEGORY")])) catalog)
  = status.HTTP_500_INTERNAL_SERVER_ERROR
  /\ answer (list_products (get_request [("available", "false")])) catalog
     = listing [fedora]
  /\ List.filter
       (selected_by (request.args (get_request [("available", "false")])))
       (Product.rows catalog)
     = [loaf].
Proof. split; [reflexivity|]. split; reflexivity. Qed.

(** C8, amended.  Unless the deciding filter is a category name unknown
    to the enumeration, or an availability text that is neither empty
    nor [True] nor [true], [GET /products] answers 200 with the array of
    exactly the persisted products selected by the first present filter
    (name, then category, then available, else all of them), in storage
    order, and leaves the store as it was; the array is empty, still
    with 200, when no product matches. *)
Theorem list_products_selected (request : request.t) (tb : Product.table) :
  ~ unknown_category_filter (request.args request) ->
  ~ unsettled_available_filter (request.args request) ->
  answer (list_products request) tb
  = listing (List.filter (selected_by (request.args request)) (Product.rows tb))
  /\ table_after (list_products request) tb = tb
  /\ ((forall p, In p (Product.rows tb) ->
                 selected_by (request.args request) p = false) ->
      answer (list_products request) tb
      = response.mk (response.Json (JArr [])) status.HTTP_200_OK ∅).
Proof.
  intros Hknown Hsettled.
  assert (Hanswer :
            serve (list_products request) tb
            = (listing (List.filter (selected_by (request.args request))
                                    (Product.rows tb)), tb, [StoreRead])).
  { unfold serve, selected_by. rewrite list_products_run. simpl.
    destruct (request.args request !! "name") as [n|] eqn:En; [reflexivity|].
    destruct (request.args request !! "category") as [c|] eqn:Ec.
    - destruct (Category.by_name c) as [cat|] eqn:Ecat.
      + pose proof (filter_by_resolved_category c cat (Product.rows tb) Ecat)
          as Hfilter.
        rewrite Ecat in Hfilter. unfold Product.find_by_category.
        rewrite Hfilter. reflexivity.
      + destruct Hknown. split; [exact En|]. exists c. split; assumption.
    - destruct (request.args request !! "available") as [text|] eqn:Ea.
      + assert (Hflag : py_bool text = says_true text).
        { destruct text as [|a text]; [reflexivity|].
          destruct (says_true (String a text)) eqn:Esays; [reflexivity|].
          destruct Hsettled. split; [exact En|]. split; [exact Ec|].
          exists (String a text). split; [exact Ea|].
          split; [discriminate|exact Esays]. }
        rewrite Hflag. reflexivity.
      + unfold Product.all. rewrite filter_all_true. reflexivity. }
  unfold answer, table_after. rewrite Hanswer. simpl.
  repeat split. intros Hnone. rewrite (filter_none _ _ Hnone). reflexivity.
Qed.

Lemma list_products_selected_witness :
  ~ unknown_category_filter (request.args (get_request [("category", "FOOD")]))
  /\ ~ unsettled_available_filter
        (request.args (get_request [("category", "FOOD")]))
  /\ answer (list_products (get_request [("category", "FOOD")])) catalog
     = listing [loaf]
  /\ answer (list_products (get_request [("category", "FOOD")])) Product.empty
     = response.mk (response.Json (JArr [])) status.HTTP_200_OK ∅.
Proof.
  assert (Hknown : ~ unknown_category_filter
                       (request.args (get_request [("category", "FOOD")]))).
  { intros (_ & c & Hc & Hnone). vm_compute in Hc. injection Hc as <-.
    vm_compute in Hnone. discriminate. }
  assert (Hsettled : ~ unsettled_available_filter
                         (request.args (get_request [("category", "FOOD")]))).
  { intros (_ & Hcat & _). vm_compute in Hcat. discriminate. }
  split; [exact Hknown|]. split; [exact Hsettled|]. split.
  - exact (proj1 (list_products_selected _ catalog Hknown Hsettled)).
  - apply (list_products_selected _ Product.empty Hknown Hsettled). intros p [].
Defined.

(** C10.  With [available] the deciding filter and its value the empty
    text ([?available=]), the answer is 200 with exactly the persisted
    products whose available field is false: the empty text gives the
    flag false, every other text the flag true. *)
Theorem list_products_available_empty (request : request.t) (tb : Product.table) :
  request.args request !! "name" = None ->
  request.args request !! "category" = None ->
  request.args request !! "available" = Some "" ->
  answer (list_products request) tb
  = listing (List.filter (fun p => negb (Product.available p)) (Product.rows tb))
  /\ py_bool "" = false
  /\ (forall text, text <> "" -> py_bool text = true).
Proof.
  intros Hname Hcat Hav. split; [|split].
  - unfold answer, serve. rewrite list_products_run, Hname, Hcat, Hav. simpl.
    unfold Product.find_by_availability.
    rewrite (filter_ext (fun p => bool_decide (Product.available p = false))
                        (fun p => negb (Product.available p))); [reflexivity|].
    intros p. destruct (Product.available p); reflexivity.
  - reflexivity.
  - intros [|a text] Hne; [contradiction|reflexivity].
Qed.

Lemma list_products_available_empty_witness :
  request.args (get_request [("available", "")]) !! "name" = None
  /\ request.args (get_request [("available", "")]) !! "category" = None
  /\ request.args (get_request [("available", "")]) !! "available" = Some ""
  /\ answer (list_products (get_request [("available", "")])) catalog
     = listing [loaf].
Proof.
  do 3 (split; [reflexivity|]).
  exact (proj1 (list_products_available_empty
                  (get_request [("available", "")]) catalog
                  eq_refl eq_refl eq_refl)).
Defined.

(** ** Deleting *)

(** C3.  [DELETE /products/<id>]: when a product has the id, it is
    removed (no lookup by that id succeeds afterwards, the other lookups
    are unchanged) and the answer is 204 with an empty body, and a second
    request for the same id is answered 404; when no product has the id,
    the answer is 404 and the store is as it was. *)
Theorem delete_products_204_then_404 (tb : Product.table) (i : Z) :
  let tb1 := table_after (delete_products i) tb in
  match Product.find i tb with
  | Some _ =>
      answer (delete_products i) tb
      = response.mk (response.Text "") status.HTTP_204_NO_CONTENT ∅
      /\ Product.find i tb1 = None
      /\ (forall j, j <> i -> Product.find j tb1 = Product.find j tb)
      /\ response.status_code (answer (delete_products i) tb1)
         = status.HTTP_404_NOT_FOUND
      /\ table_after (delete_products i) tb1 = tb1
  | None =>
      response.status_code (answer (delete_products i) tb)
      = status.HTTP_404_NOT_FOUND
      /\ tb1 = tb
  end.
Proof.
  unfold answer, table_after.
  destruct (Product.find i tb) as [p|] eqn:Hfind; simpl.
  - rewrite (serve_delete_found i p tb Hfind). simpl.
    apply find_Some in Hfind as [_ Hid].
    rewrite (serve_delete_missing i _ (find_delete i p tb Hid)). simpl.
    split; [reflexivity|]. split; [exact (find_delete i p tb Hid)|].
    split; [|split; reflexivity].
    intros j Hne. exact (find_delete_other i j p tb Hid Hne).
  - rewrite (serve_delete_missing i tb Hfind). split; reflexivity.
Qed.

(** ** Media type *)

(** C7.  A request to [POST /products] or to [PUT /products/<id>] whose
    [Content-Type] header is missing or differs from [application/json]
    is answered 415; the body has not been read and the store has not
    been called when the answer is given (the view function has done
    nothing), and the store is as it was. *)
Theorem content_type_checked_first
        (request : request.t) (tb : Product.table) (i : Z) :
  request.headers request !! "Content-Type" <> Some "application/json" ->
  (response.status_code (answer (create_products request) tb)
   = status.HTTP_415_UNSUPPORTED_MEDIA_TYPE
   /\ events (create_products request) tb = []
   /\ table_after (create_products request) tb = tb)
  /\ (response.status_code (answer (update_products request i) tb)
      = status.HTTP_415_UNSUPPORTED_MEDIA_TYPE
      /\ events (update_products request i) tb = []
      /\ table_after (update_products request i) tb = tb).
Proof.
  intros Hct. unfold answer, events, table_after, serve.
  unfold create_products, update_products, bind.
  rewrite !(check_content_type_refuses request "application/json" _ Hct).
  repeat split; reflexivity.
Qed.

Lemma content_type_checked_first_witness :
  request.headers (text_request fedora_payload) !! "Content-Type"
  <> Some "application/json"
  /\ response.status_code
       (answer (create_products (text_request fedora_payload)) catalog)
     = status.HTTP_415_UNSUPPORTED_MEDIA_TYPE
  /\ events (update_products (get_request []) 1) catalog = [].
Proof.
  split; [vm_compute; discriminate|]. split.
  - apply (content_type_checked_first (text_request fedora_payload) catalog 1).
    vm_compute. discriminate.
  - apply (content_type_checked_first (get_request []) catalog 1).
    vm_compute. discriminate.
Defined.

(** ** Serialization *)

(** C9.  Deserializing the serialized form of a product gives back its
    name, description, price (the same coefficient and the same number of
    places), availability and category; the id is not taken from the
    mapping but kept from the record that is filled. *)
Theorem deserialize_serialize (self p : Product.t) :
  Product.deserialize self (JObj (Product.serialize p))
  = inr {| Product.id := Product.id self;
           Product.name := Product.name p;
           Product.description := Product.description p;
           Product.price := Product.price p;
           Product.available := Product.available p;
           Product.category := Product.category p |}.
Proof.
  unfold Product.deserialize, raising_bind, Product.item.
  rewrite serialize_name, serialize_description, serialize_price,
    serialize_available, serialize_category.
  simpl. rewrite of_str_str, by_name_name. reflexivity.
Qed.

(** ** Creating *)

(** C5.  On a well-formed store, [POST /products] with the JSON media
    type and a valid body creates the product and answers 201: the body
    of the answer is the serialized product, whose field values are the
    body's and whose id is an integer no stored product had; the
    [Location] header is the URL of [GET /products/<id>] for that id,
    and that route then answers 200 with the same serialized product. *)
Theorem create_products_201
        (request : request.t) (data : json) (tb : Product.table) :
  Product.well_formed tb ->
  has_content_type request "application/json" ->
  request.json_body request = Some data ->
  valid_payload data = true ->
  let new_id := Product.next_id tb in
  let tb' := table_after (create_products request) tb in
  exists p,
    answer (create_products request) tb
    = response.mk (jsonify (Product.serialize p)) status.HTTP_201_CREATED
        (<["Location" := url_for_get_products request (Some new_id)]> ∅)
    /\ carries data p
    /\ Product.id p = Some new_id
    /\ Product.serialize p !! "id" = Some (JNum new_id)
    /\ Product.find new_id tb = None
    /\ Product.find new_id tb' = Some p
    /\ (forall j, j <> new_id -> Product.find j tb' = Product.find j tb)
    /\ answer (get_products new_id) tb'
       = response.mk (jsonify (Product.serialize p)) status.HTTP_200_OK ∅
    /\ Product.well_formed tb'.
Proof.
  intros Hwf Hct Hbody Hvalid new_id tb'.
  destruct (deserialize_valid Product.blank _ Hvalid) as (p0 & Hde & _ & Hcarries).
  pose proof (create_found p0 tb Hwf) as Hcreate.
  pose proof (well_formed_create p0 tb Hwf) as Hwf'.
  assert (Hserve : serve (create_products request) tb
                   = (response.mk
                        (jsonify (Product.serialize (Product.create p0 tb).1))
                        status.HTTP_201_CREATED
                        (<["Location" :=
                            url_for_get_products request (Some new_id)]> ∅),
                      (Product.create p0 tb).2, [ParsedBody; StoreWrite])).
  { unfold serve. rewrite (create_products_run request _ Hct). simpl.
    rewrite Hbody, Hde. reflexivity. }
  unfold tb', answer, table_after. rewrite Hserve. clear Hserve.
  destruct (Product.create p0 tb) as [p tb1] eqn:Hp0. simpl in *.
  destruct Hcreate as (Hid & Hfound & Hothers).
  exists p. split; [reflexivity|]. split.
  { destruct Hcarries as (m & pt & Hdata & Hn & Hd & Hpt & Hprice & Ha & Hc).
    injection Hp0 as <- _. exists m, pt. simpl. tauto. }
  split; [exact Hid|]. split; [rewrite serialize_id, Hid; reflexivity|].
  split; [exact (next_id_fresh tb Hwf)|]. split; [exact Hfound|].
  split; [exact Hothers|]. split; [|exact Hwf'].
  unfold answer, serve. rewrite get_products_run. simpl.
  unfold new_id. rewrite Hfound. reflexivity.
Qed.

Lemma well_formed_catalog : Product.well_formed catalog.
Proof.
  split.
  - unfold Product.row_ids. simpl.
    apply NoDup_cons. split; [|apply NoDup_singleton].
    intros Hin. apply list_elem_of_singleton in Hin. discriminate.
  - repeat constructor; eexists; (split; [reflexivity|]); reflexivity.
Qed.

Lemma create_products_201_witness :
  Product.well_formed catalog
  /\ has_content_type (json_request fedora_payload) "application/json"
  /\ request.json_body (json_request fedora_payload) = Some fedora_payload
  /\ valid_payload fedora_payload = true
  /\ exists p,
      answer (create_products (json_request fedora_payload)) catalog
      = response.mk (jsonify (Product.serialize p)) status.HTTP_201_CREATED
          (<["Location" := "http://localhost/products/3"]> ∅)
      /\ Product.id p = Some 3
      /\ Product.name p = "Fedora"
      /\ Product.price p = Decimal.mk 1250 2.
Proof.
  split; [exact well_formed_catalog|]. split; [reflexivity|].
  split; [reflexivity|]. split; [reflexivity|].
  destruct (create_products_201 (json_request fedora_payload) fedora_payload
              catalog well_formed_catalog eq_refl eq_refl eq_refl)
    as (p & Hanswer & Hcarries & Hid & _).
  exists p. split; [exact Hanswer|]. split; [exact Hid|].
  destruct Hcarries as (m & pt & Hdata & Hn & _ & Hpt & Hprice & _).
  injection Hdata as <-. vm_compute in Hn. vm_compute in Hpt.
  injection Hn as Hn. injection Hpt as <-. vm_compute in Hprice.
  injection Hprice as Hprice. split; symmetry; assumption.
Defined.

(** C6.  [POST /products] with the JSON media type and a body that is
    not valid (a required field is missing or holds a malformed value)
    is answered 400 and persists nothing: the store is as it was and has
    not been written. *)
Theorem create_products_400
        (request : request.t) (data : json) (tb : Product.table) :
  has_content_type request "application/json" ->
  request.json_body request = Some data ->
  valid_payload data = false ->
  response.status_code (answer (create_products request) tb)
  = status.HTTP_400_BAD_REQUEST
  /\ table_after (create_products request) tb = tb
  /\ ~ In StoreWrite (events (create_products request) tb).
Proof.
  intros Hct Hbody Hbad.
  destruct (deserialize_invalid Product.blank _ Hbad) as (message & Hde).
  unfold answer, table_after, events, serve.
  rewrite (create_products_run request _ Hct). simpl.
  rewrite Hbody, Hde. simpl.
  split; [reflexivity|]. split; [reflexivity|].
  intros [Hin|[]]. discriminate.
Qed.

(** The bodies the claim names are not valid: a missing required field,
    an [available] that is no boolean, a category name unknown to the
    enumeration. *)
Lemma missing_field_invalid (m : gmap string json) (key : string) :
  In key ["name"; "description"; "price"; "available"; "category"] ->
  m !! key = None -> valid_payload (JObj m) = false.
Proof.
  simpl. intros [<-|[<-|[<-|[<-|[<-|[]]]]]] Hnone; rewrite Hnone; simpl;
    rewrite ?andb_false_r; reflexivity.
Qed.

Lemma available_not_boolean_invalid (m : gmap string json) (v : json) :
  m !! "available" = Some v -> (forall b, v <> JBool b) ->
  valid_payload (JObj m) = false.
Proof.
  simpl. intros -> Hv. destruct v; try (rewrite ?andb_false_r; reflexivity).
  destruct (Hv b eq_refl).
Qed.

Lemma unknown_category_invalid (m : gmap string json) (c : string) :
  m !! "category" = Some (JStr c) -> Category.by_name c = None ->
  valid_payload (JObj m) = false.
Proof.
  simpl. intros -> Hc. simpl. rewrite Hc.
  rewrite bool_decide_eq_false_2 by (intros [x Hx]; discriminate).
  rewrite ?andb_false_r. reflexivity.
Qed.

Lemma create_products_400_witness :
  has_content_type (json_request nameless_payload) "application/json"
  /\ request.json_body (json_request nameless_payload) = Some nameless_payload
  /\ valid_payload nameless_payload = false
  /\ response.status_code
       (answer (create_products (json_request nameless_payload)) catalog)
     = status.HTTP_400_BAD_REQUEST
  /\ table_after (create_products (json_request nameless_payload)) catalog
     = catalog.
Proof.
  assert (Hct : has_content_type (json_request nameless_payload)
                                 "application/json") by reflexivity.
  assert (Hbad : valid_payload nameless_payload = false) by reflexivity.
  split; [exact Hct|]. split; [reflexivity|]. split; [exact Hbad|].
  destruct (create_products_400 (json_request nameless_payload)
              nameless_payload catalog Hct eq_refl Hbad)
    as (Hstatus & Htable & _).
  split; [exact Hstatus|exact Htable].
Defined.

(** ** Updating *)

(** C4, as stated, fails where the body is no JSON text: the body is
    read before the product is looked up, so a [PUT] with the JSON media
    type for an id that no product has is answered 400, not 404. *)
Lemma update_products_unparseable_body_400 :
  has_content_type broken_request "application/json"
  /\ Product.find 0 catalog = None
  /\ response.status_code (answer (update_products broken_request 0) catalog)
     = status.HTTP_400_BAD_REQUEST.
Proof. repeat split. Qed.

(** C4, amended.  [PUT /products/<id>] with the JSON media type: when
    the body is no JSON text, the answer is 400, whether a product has
    the id or not; otherwise, when no stored product has the id, the
    answer is 404; otherwise, when the body is not valid, the answer is
    400; otherwise the stored product takes the values of the body and
    keeps its id, the lookup by that id gives the new values, the other
    products are untouched, and the answer is 200 with the serialized
    updated product.  In the first three cases the store is as it was. *)
Theorem update_products_404_400_200
        (request : request.t) (tb : Product.table) (i : Z) :
  has_content_type request "application/json" ->
  let tb' := table_after (update_products request i) tb in
  match request.json_body request with
  | None =>
      response.status_code (answer (update_products request i) tb)
      = status.HTTP_400_BAD_REQUEST
      /\ tb' = tb
  | Some data =>
      match Product.find i tb with
      | None =>
          response.status_code (answer (update_products request i) tb)
          = status.HTTP_404_NOT_FOUND
          /\ tb' = tb
      | Some _ =>
          if valid_payload data
          then
            exists p,
              answer (update_products request i) tb
              = response.mk (jsonify (Product.serialize p))
                            status.HTTP_200_OK ∅
              /\ carries data p
              /\ Product.id p = Some i
              /\ Product.find i tb' = Some p
              /\ (forall j, j <> i -> Product.find j tb' = Product.find j tb)
          else
            response.status_code (answer (update_products request i) tb)
            = status.HTTP_400_BAD_REQUEST
            /\ tb' = tb
      end
  end.
Proof.
  intros Hct tb'. unfold tb', answer, table_after, serve.
  rewrite (update_products_run request i _ Hct). simpl.
  destruct (request.json_body request) as [data|]; [|split; reflexivity].
  destruct (Product.find i tb) as [p0|] eqn:Hfind; [|split; reflexivity].
  destruct (valid_payload data) eqn:Hvalid.
  - destruct (deserialize_valid p0 _ Hvalid) as (p & Hde & Hid & Hcarries).
    apply find_Some in Hfind as Hp0. destruct Hp0 as [_ Hid0].
    rewrite Hid0 in Hid.
    destruct (update_found i p p0 tb Hfind Hid)
      as (tb1 & Hup & Hfound & Hothers & _).
    rewrite Hde, Hup. simpl. exists p.
    split; [reflexivity|]. split; [exact Hcarries|]. split; [exact Hid|].
    split; [exact Hfound|exact Hothers].
  - destruct (deserialize_invalid p0 _ Hvalid) as (message & Hde).
    rewrite Hde. split; reflexivity.
Qed.

Lemma update_products_404_400_200_witness :
  has_content_type (json_request renamed_payload) "application/json"
  /\ (exists p,
        answer (update_products (json_request renamed_payload) 1) catalog
        = response.mk (jsonify (Product.serialize p)) status.HTTP_200_OK ∅
        /\ Product.id p = Some 1
        /\ Product.find 1
             (table_after (update_products (json_request renamed_payload) 1)
                          catalog)
           = Some p)
  /\ response.status_code
       (answer (update_products (json_request mistyped_payload) 1) catalog)
     = status.HTTP_400_BAD_REQUEST
  /\ response.status_code
       (answer (update_products (json_request renamed_payload) 0) catalog)
     = status.HTTP_404_NOT_FOUND
  /\ response.status_code
       (answer (update_products broken_request 1) catalog)
     = status.HTTP_400_BAD_REQUEST.
Proof.
  assert (Hct : forall data, has_content_type (json_request data)
                                              "application/json")
    by (intros data; reflexivity).
  split; [apply Hct|]. split; [|split; [|split]].
  - destruct (update_products_404_400_200 (json_request renamed_payload)
                catalog 1 (Hct _)) as (p & Hanswer & _ & Hid & Hfound & _).
    exists p. split; [exact Hanswer|]. split; [exact Hid|exact Hfound].
  - exact (proj1 (update_products_404_400_200 (json_request mistyped_payload)
                    catalog 1 (Hct _))).
  - exact (proj1 (update_products_404_400_200 (json_request renamed_payload)
                    catalog 0 (Hct _))).
  - exact (proj1 (update_products_404_400_200 broken_request catalog 1
                    eq_refl)).
Defined.

(* ================================================================== *)
(** * Further properties of the routes and of the test helpers *)

(** ** Shared lemmas *)

Section Served.

Implicit Types (tb : Product.table) (p : Product.t) (i : Z) (request : request.t).

Lemma deserialize_blank_serialized p :
  Product.deserialize Product.blank (JObj (Product.serialize p))
  = inr (with_id None p).
Proof.
  unfold Product.deserialize, raising_bind, Product.item.
  rewrite serialize_name, serialize_description, serialize_price,
    serialize_available, serialize_category.
  simpl. rewrite of_str_str, by_name_name. reflexivity.
Qed.

(** The serialized form of [p] under another name is read as [p] with
    that name, whatever record is filled. *)
Lemma deserialize_renamed (self p : Product.t) (n : string) :
  Product.deserialize self
    (JObj (<["name" := JStr n]> (Product.serialize p)))
  = inr {| Product.id := Product.id self; Product.name := n;
           Product.description := Product.description p;
           Product.price := Product.price p;
           Product.available := Product.available p;
           Product.category := Product.category p |}.
Proof.
  unfold Product.deserialize, raising_bind, Product.item.
  rewrite lookup_insert_eq.
  rewrite !lookup_insert_ne by discriminate.
  rewrite serialize_description, serialize_price,
    serialize_available, serialize_category.
  simpl. rewrite of_str_str, by_name_name. reflexivity.
Qed.

Lemma serialized_carries p : carries (JObj (Product.serialize p)) p.
Proof.
  exists (Product.serialize p), (Decimal.str (Product.price p)).
  split; [reflexivity|]. split; [apply serialize_name|].
  split; [apply serialize_description|]. split; [apply serialize_price|].
  split; [apply of_str_str|]. split; [apply serialize_available|].
  apply serialize_category.
Qed.

(** Posting the serialized form of [p] as JSON: the answer and the store
    afterwards. *)
Lemma serve_post_serialized p tb :
  serve (client_post (JObj (Product.serialize p))) tb
  = (response.mk
       (jsonify (Product.serialize (with_id (Some (Product.next_id tb)) p)))
       status.HTTP_201_CREATED
       (<["Location" :=
           url_for_get_products (json_request (JObj (Product.serialize p)))
                                (Some (Product.next_id tb))]> ∅),
     {| Product.rows :=
          (Product.rows tb ++ [with_id (Some (Product.next_id tb)) p])%list;
        Product.next_id := Product.next_id tb + 1 |},
     [ParsedBody; StoreWrite]).
Proof.
  unfold serve, client_post.
  rewrite (create_products_run (json_request _) _ eq_refl). simpl.
  rewrite deserialize_blank_serialized. reflexivity.
Qed.

Lemma serve_get_found i p tb :
  Product.find i tb = Some p ->
  serve (get_products i) tb
  = (response.mk (jsonify (Product.serialize p)) status.HTTP_200_OK ∅,
     tb, [StoreRead]).
Proof.
  intros Hfind. unfold serve. rewrite get_products_run. simpl.
  rewrite Hfind. reflexivity.
Qed.

Lemma serve_get_missing i tb :
  Product.find i tb = None ->
  serve (get_products i) tb
  = (response.mk
       (response.Text ("Product with id: " ++ pretty i ++ " does not exist"))
       status.HTTP_404_NOT_FOUND ∅,
     tb, [StoreRead]).
Proof.
  intros Hfind. unfold serve. rewrite get_products_run. simpl.
  rewrite Hfind. reflexivity.
Qed.

(** The store after a post to a well-formed store holds the new product
    under the id that was the next one. *)
Lemma find_posted p tb :
  Product.well_formed tb ->
  Product.find (Product.next_id tb)
    {| Product.rows :=
         (Product.rows tb ++ [with_id (Some (Product.next_id tb)) p])%list;
       Product.next_id := Product.next_id tb + 1 |}
  = Some (with_id (Some (Product.next_id tb)) p).
Proof.
  intros Hwf. exact (proj1 (proj2 (create_found p tb Hwf))).
Qed.

Lemma length_numbered (n : Z) (made : list Product.t) :
  length (numbered n made) = length made.
Proof.
  revert n. induction made as [|p made IH]; intros n; simpl; [reflexivity|].
  rewrite IH. reflexivity.
Qed.

Lemma filter_numbered (f : Product.t -> bool) (n : Z) (made : list Product.t) :
  (forall (o : option Z) q, f (with_id o q) = f q) ->
  length (List.filter f (numbered n made)) = length (List.filter f made).
Proof.
  intros Hf. revert n. induction made as [|p made IH]; intros n; simpl;
    [reflexivity|].
  rewrite Hf. destruct (f p); simpl; rewrite IH; reflexivity.
Qed.

(** [_create_products] never fails: every post is answered 201, the
    products come back under consecutive ids, and the store holds them
    after the rows it had. *)
Lemma _create_products_numbered (made : list Product.t) tb :
  _create_products made tb
  = Some (numbered (Product.next_id tb) made,
          {| Product.rows :=
               (Product.rows tb ++ numbered (Product.next_id tb) made)%list;
             Product.next_id :=
               Product.next_id tb + Z.of_nat (length made) |}).
Proof.
  revert tb. induction made as [|p made IH]; intros tb.
  - simpl. rewrite app_nil_r, Z.add_0_r. destruct tb; reflexivity.
  - cbn [_create_products]. rewrite serve_post_serialized.
    cbn [fst snd response.status_code response.data jsonify].
    rewrite bool_decide_eq_true_2 by reflexivity.
    rewrite serialize_id. cbn [with_id Product.id from_option json_id].
    rewrite IH. cbn [Product.rows Product.next_id numbered].
    rewrite <- app_assoc. cbn [app length].
    replace (Product.next_id tb + 1 + Z.of_nat (length made))
      with (Product.next_id tb + Z.of_nat (S (length made))) by lia.
    reflexivity.
Qed.

End Served.

Lemma _create_products_one (p : Product.t) (tb : Product.table) :
  _create_products [p] tb
  = Some ([with_id (Some (Product.next_id tb)) p],
          {| Product.rows :=
               (Product.rows tb ++ [with_id (Some (Product.next_id tb)) p])%list;
             Product.next_id := Product.next_id tb + 1 |}).
Proof. rewrite _create_products_numbered. reflexivity. Qed.

(** ** Reading one product *)

(** X1.  [GET /products/<id>] answers 200 with the serialized stored
    product, whose [id] member is the id asked for and which reads back
    as the stored field values, when a product has the id; it answers
    404 with a message that names the id otherwise.  Either way the
    store is as it was and was read once. *)
Theorem get_products_200_or_404 (tb : Product.table) (i : Z) :
  match Product.find i tb with
  | Some p =>
      exists m,
        answer (get_products i) tb
        = response.mk (jsonify m) status.HTTP_200_OK ∅
        /\ m !! "id" = Some (JNum i)
        /\ Product.deserialize Product.blank (JObj m) = inr (with_id None p)
  | None =>
      answer (get_products i) tb
      = response.mk
          (response.Text ("Product with id: " ++ pretty i ++ " does not exist"))
          status.HTTP_404_NOT_FOUND ∅
  end
  /\ table_after (get_products i) tb = tb
  /\ events (get_products i) tb = [StoreRead].
Proof.
  unfold answer, table_after, events.
  destruct (Product.find i tb) as [p|] eqn:Hfind.
  - rewrite (serve_get_found i p tb Hfind). simpl.
    split; [|split; reflexivity].
    exists (Product.serialize p). split; [reflexivity|].
    apply find_Some in Hfind as [_ Hid].
    split; [rewrite serialize_id, Hid; reflexivity|].
    apply deserialize_blank_serialized.
  - rewrite (serve_get_missing i tb Hfind). simpl.
    split; [reflexivity|split; reflexivity].
Qed.

(** ** The media type check on its own *)

(** X2.  [check_content_type] returns exactly when the request has a
    [Content-Type] header equal to the expected media type; every other
    outcome is the abort with 415 and a message that names the expected
    type, and no outcome changes the store or reads the body. *)
Theorem check_content_type_exact
        (request : request.t) (content_type : string) (w : world) :
  (check_content_type request content_type w = (inr tt, w)
   <-> request.headers request !! "Content-Type" = Some content_type)
  /\ (check_content_type request content_type w = (inr tt, w)
      \/ check_content_type request content_type w
         = (inl (HTTPException status.HTTP_415_UNSUPPORTED_MEDIA_TYPE
                   ("Content-Type must be " ++ content_type)), w)).
Proof.
  destruct (decide (request.headers request !! "Content-Type"
                    = Some content_type)) as [Hct|Hct].
  - pose proof (check_content_type_accepts request content_type w Hct) as Hrun.
    split; [|left; exact Hrun]. split; intros _; assumption.
  - pose proof (check_content_type_refuses request content_type w Hct) as Hrun.
    split; [|right; exact Hrun]. split; [|contradiction].
    rewrite Hrun. discriminate.
Qed.

(** ** Listing *)

(** X3.  When [available] is the deciding filter of [GET /products] and
    its text is not empty, whatever the text says, the answer is 200 with
    exactly the persisted products whose available field is true. *)
Theorem list_products_available_nonempty
        (request : request.t) (tb : Product.table) (text : string) :
  request.args request !! "name" = None ->
  request.args request !! "category" = None ->
  request.args request !! "available" = Some text ->
  text <> "" ->
  answer (list_products request) tb
  = listing (List.filter Product.available (Product.rows tb)).
Proof.
  intros Hname Hcat Hav Htext.
  unfold answer, serve. rewrite list_products_run, Hname, Hcat, Hav. simpl.
  assert (py_bool text = true) as ->
      by (destruct text; [contradiction|reflexivity]).
  unfold Product.find_by_availability.
  rewrite (filter_ext (fun p => bool_decide (Product.available p = true))
                      Product.available); [reflexivity|].
  intros p. destruct (Product.available p); reflexivity.
Qed.

Lemma list_products_available_nonempty_witness :
  request.args (get_request [("available", "0")]) !! "name" = None
  /\ request.args (get_request [("available", "0")]) !! "category" = None
  /\ request.args (get_request [("available", "0")]) !! "available" = Some "0"
  /\ "0" <> ""
  /\ answer (list_products (get_request [("available", "0")])) catalog
     = listing [fedora].
Proof.
  do 3 (split; [reflexivity|]). split; [discriminate|].
  apply (list_products_available_nonempty
           (get_request [("available", "0")]) catalog "0");
    [reflexivity|reflexivity|reflexivity|discriminate].
Defined.

(** X4.  When the category filter decides [GET /products] and its
    value is the name of no member of the enumeration, the view function
    raises [KeyError] on that name before it reaches the store: nothing
    was read or written, and the caller gets the 500 of an unexpected
    failure. *)
Theorem unknown_category_stops_before_store
        (request : request.t) (tb : Product.table) (c : string) :
  request.args request !! "name" = None ->
  request.args request !! "category" = Some c ->
  Category.by_name c = None ->
  list_products request {| db := tb; journal := [] |}
  = (inl (KeyError c), {| db := tb; journal := [] |})
  /\ response.status_code (answer (list_products request) tb)
     = status.HTTP_500_INTERNAL_SERVER_ERROR
  /\ events (list_products request) tb = []
  /\ table_after (list_products request) tb = tb.
Proof.
  intros Hname Hcat Hnone.
  assert (Hrun : list_products request {| db := tb; journal := [] |}
                 = (inl (KeyError c), {| db := tb; journal := [] |})).
  { rewrite list_products_run, Hname, Hcat, Hnone. reflexivity. }
  split; [exact Hrun|].
  unfold answer, events, table_after, serve. rewrite Hrun.
  split; [reflexivity|]. split; reflexivity.
Qed.

Lemma unknown_category_stops_before_store_witness :
  request.args (get_request [("category", "food")]) !! "name" = None
  /\ request.args (get_request [("category", "food")]) !! "category"
     = Some "food"
  /\ Category.by_name "food" = None
  /\ response.status_code
       (answer (list_products (get_request [("category", "food")])) catalog)
     = status.HTTP_500_INTERNAL_SERVER_ERROR
  /\ events (list_products (get_request [("category", "food")])) catalog = [].
Proof.
  do 3 (split; [reflexivity|]).
  destruct (unknown_category_stops_before_store
              (get_request [("category", "food")]) catalog "food"
              eq_refl eq_refl eq_refl) as (_ & Hstatus & Hevents & _).
  split; [exact Hstatus|exact Hevents].
Defined.

(** X5.  [GET /products] never changes the store and never reads the
    body of the request: it reads the store once, or not at all when the
    category lookup raises. *)
Theorem list_products_never_writes (request : request.t) (tb : Product.table) :
  table_after (list_products request) tb = tb
  /\ (events (list_products request) tb = []
      \/ events (list_products request) tb = [StoreRead]).
Proof.
  unfold table_after, events, serve. rewrite list_products_run. simpl.
  destruct (request.args request !! "name"); [split; [|right]; reflexivity|].
  destruct (request.args request !! "category") as [c|].
  - destruct (Category.by_name c); (split; [reflexivity|]);
      [right|left]; reflexivity.
  - destruct (request.args request !! "available");
      (split; [|right]; reflexivity).
Qed.

(** ** Failure leaves the store alone *)

(** X6.  Whatever view function serves a request, when the answer is an
    error (a status of 400 or more) the store is exactly as it was: the
    routes check and abort before they write. *)
Theorem failed_request_changes_nothing
        (request : request.t) (i : Z) (tb : Product.table) (v : view response.t) :
  In v (views request i) ->
  400 <= response.status_code (answer v tb) ->
  table_after v tb = tb.
Proof.
  unfold views. simpl.
  intros [<-|[<-|[<-|[<-|[<-|[<-|[]]]]]]] Hfail.
  - reflexivity.
  - revert Hfail. unfold answer, table_after, serve.
    destruct (content_type_cases request) as [Hct|Hct].
    + rewrite (create_products_run request _ Hct). simpl.
      destruct (request.json_body request) as [data|]; [|reflexivity].
      destruct (Product.deserialize _ _); simpl; [reflexivity|].
      unfold status.HTTP_201_CREATED. lia.
    + unfold create_products, bind.
      rewrite (check_content_type_refuses request _ _ Hct). reflexivity.
  - apply list_products_reads_only.
  - apply get_products_reads_only.
  - revert Hfail. unfold answer, table_after, serve.
    destruct (content_type_cases request) as [Hct|Hct].
    + rewrite (update_products_run request i _ Hct). simpl.
      destruct (request.json_body request) as [data|]; [|reflexivity].
      destruct (Product.find i tb); [|reflexivity].
      destruct (Product.deserialize _ _) as [e|p]; [reflexivity|].
      destruct (Product.update p tb); simpl; [reflexivity|].
      unfold status.HTTP_200_OK. lia.
    + unfold update_products, bind.
      rewrite (check_content_type_refuses request _ _ Hct). reflexivity.
  - revert Hfail. unfold answer, table_after, serve.
    rewrite delete_products_run. simpl.
    destruct (Product.find i tb); simpl; [|reflexivity].
    unfold status.HTTP_204_NO_CONTENT. lia.
Qed.

Lemma failed_request_changes_nothing_witness :
  In (update_products (json_request mistyped_payload) 1)
     (views (json_request mistyped_payload) 1)
  /\ 400 <= response.status_code
              (answer (update_products (json_request mistyped_payload) 1) catalog)
  /\ table_after (update_products (json_request mistyped_payload) 1) catalog
     = catalog.
Proof.
  assert (Hin : In (update_products (json_request mistyped_payload) 1)
                   (views (json_request mistyped_payload) 1))
    by (simpl; tauto).
  assert (Hfail : 400 <= response.status_code
                    (answer (update_products (json_request mistyped_payload) 1)
                            catalog))
    by (vm_compute; discriminate).
  split; [exact Hin|]. split; [exact Hfail|].
  exact (failed_request_changes_nothing _ 1 catalog _ Hin Hfail).
Defined.

(** ** The scenarios of the test suite *)

(** X7.  [_create_products] and [test_list_all_products]: whatever
    products the factory makes and whatever the store holds, every post
    is answered 201, the products come back in order under consecutive
    ids starting at the next id of the store, and [GET /products] then
    lists the rows the store had followed by them; on a store without
    rows the array has as many entries as products were made. *)
Theorem created_products_are_listed (made : list Product.t) (tb : Product.table) :
  exists tb',
    _create_products made tb = Some (numbered (Product.next_id tb) made, tb')
    /\ answer (client_list []) tb'
       = listing (Product.rows tb ++ numbered (Product.next_id tb) made)
    /\ (Product.rows tb = [] ->
        exists items,
          response.data (answer (client_list []) tb')
          = response.Json (JArr items)
          /\ length items = length made).
Proof.
  eexists. split; [apply _create_products_numbered|].
  assert (Hlist : forall tb0, answer (client_list []) tb0
                              = listing (Product.rows tb0)).
  { intros tb0. unfold answer, serve, client_list.
    rewrite list_products_run. reflexivity. }
  rewrite Hlist. cbn [Product.rows]. split; [reflexivity|].
  intros Hempty. rewrite Hempty. eexists. split; [reflexivity|].
  rewrite !length_fmap. apply length_numbered.
Qed.

(** X8.  [test_read_product]: on a well-formed store, a product made by
    the factory and created through the facade is read back by
    [GET /products/<id>] under the id it was given: the answer is 200 and
    its body carries the name, description, price, availability and
    category of the product that was made. *)
Theorem created_product_is_read (p : Product.t) (tb : Product.table) :
  Product.well_formed tb ->
  exists i tb' m,
    _create_products [p] tb = Some ([with_id (Some i) p], tb')
    /\ answer (client_get i) tb'
       = response.mk (jsonify m) status.HTTP_200_OK ∅
    /\ m !! "id" = Some (JNum i)
    /\ carries (JObj m) p.
Proof.
  intros Hwf. exists (Product.next_id tb). eexists.
  exists (Product.serialize (with_id (Some (Product.next_id tb)) p)).
  split; [apply _create_products_one|].
  unfold answer, client_get.
  rewrite (serve_get_found _ _ _ (find_posted p tb Hwf)).
  split; [reflexivity|]. split; [reflexivity|].
  exact (serialized_carries (with_id (Some (Product.next_id tb)) p)).
Qed.

Lemma created_product_is_read_witness :
  Product.well_formed catalog
  /\ exists i tb' m,
      _create_products [loaf] catalog = Some ([with_id (Some i) loaf], tb')
      /\ answer (client_get i) tb'
         = response.mk (jsonify m) status.HTTP_200_OK ∅
      /\ m !! "id" = Some (JNum i)
      /\ carries (JObj m) loaf.
Proof.
  split; [exact well_formed_catalog|].
  exact (created_product_is_read loaf catalog well_formed_catalog).
Defined.

(** X9.  [test_update_product]: on a well-formed store, after a product
    is created, a [PUT] of its serialized form under a new name is
    answered 200 with the new name and the other values unchanged, and
    [GET /products/<id>] then gives the same body. *)
Theorem created_product_is_renamed
        (p : Product.t) (new_name : string) (tb : Product.table) :
  Product.well_formed tb ->
  let i := Product.next_id tb in
  let test_product := with_id (Some i) p in
  let data := JObj (<["name" := JStr new_name]> (Product.serialize test_product)) in
  let updated :=
    {| Product.id := Some i; Product.name := new_name;
       Product.description := Product.description p;
       Product.price := Product.price p;
       Product.available := Product.available p;
       Product.category := Product.category p |} in
  exists tb',
    _create_products [p] tb = Some ([test_product], tb')
    /\ answer (client_put i data) tb'
       = response.mk (jsonify (Product.serialize updated)) status.HTTP_200_OK ∅
    /\ Product.serialize updated !! "name" = Some (JStr new_name)
    /\ answer (client_get i) (table_after (client_put i data) tb')
       = response.mk (jsonify (Product.serialize updated)) status.HTTP_200_OK ∅.
Proof.
  intros Hwf i test_product data updated.
  set (tb' := {| Product.rows := (Product.rows tb ++ [test_product])%list;
                 Product.next_id := Product.next_id tb + 1 |}).
  exists tb'. split; [apply _create_products_one|].
  assert (Hfound : Product.find i tb' = Some test_product)
    by exact (find_posted p tb Hwf).
  destruct (update_found i updated test_product tb' Hfound eq_refl)
    as (tb2 & Hup & Hfound2 & _).
  assert (Hput : serve (client_put i data) tb'
                 = (response.mk (jsonify (Product.serialize updated))
                      status.HTTP_200_OK ∅,
                    tb2, [ParsedBody; StoreRead; StoreWrite])).
  { unfold serve, client_put.
    rewrite (update_products_run (json_request data) i _ eq_refl).
    cbn [db journal request.json_body json_request]. rewrite Hfound.
    unfold data. rewrite deserialize_renamed.
    change (Product.update updated tb' = inr tb2) in Hup.
    cbn [with_id Product.id Product.description Product.price
         Product.available Product.category test_product].
    fold updated. rewrite Hup. reflexivity. }
  unfold answer, table_after, client_get. rewrite Hput. cbn [fst snd].
  split; [reflexivity|]. split; [reflexivity|].
  rewrite (serve_get_found i updated tb2 Hfound2). reflexivity.
Qed.

Lemma created_product_is_renamed_witness :
  Product.well_formed catalog
  /\ exists tb',
      _create_products [loaf] catalog = Some ([with_id (Some 3) loaf], tb')
      /\ response.status_code
           (answer (client_put 3
                      (JObj (<["name" := JStr "Loaf_test"]>
                               (Product.serialize (with_id (Some 3) loaf)))))
                   tb')
         = status.HTTP_200_OK.
Proof.
  split; [exact well_formed_catalog|].
  destruct (created_product_is_renamed loaf "Loaf_test" catalog
              well_formed_catalog) as (tb' & Hmade & Hput & _).
  exists tb'. split; [exact Hmade|].
  exact (f_equal response.status_code Hput).
Defined.

(** X10.  [test_delete_product]: on a well-formed store, after a product
    is created, [DELETE /products/<id>] is answered 204 and
    [GET /products/<id>] is then answered 404. *)
Theorem created_product_is_deleted (p : Product.t) (tb : Product.table) :
  Product.well_formed tb ->
  let i := Product.next_id tb in
  exists tb',
    _create_products [p] tb = Some ([with_id (Some i) p], tb')
    /\ response.status_code (answer (client_delete i) tb')
       = status.HTTP_204_NO_CONTENT
    /\ response.status_code
         (answer (client_get i) (table_after (client_delete i) tb'))
       = status.HTTP_404_NOT_FOUND.
Proof.
  intros Hwf i. eexists. split; [apply _create_products_one|].
  pose proof (find_posted p tb Hwf) as Hfound.
  unfold answer, table_after, client_delete, client_get.
  rewrite (serve_delete_found i _ _ Hfound). cbn [fst snd].
  split; [reflexivity|].
  rewrite (serve_get_missing i _ (find_delete i (with_id (Some i) p) _ eq_refl)).
  reflexivity.
Qed.

Lemma created_product_is_deleted_witness :
  Product.well_formed catalog
  /\ exists tb',
      _create_products [loaf] catalog = Some ([with_id (Some 3) loaf], tb')
      /\ response.status_code (answer (client_delete 3) tb')
         = status.HTTP_204_NO_CONTENT
      /\ response.status_code
           (answer (client_get 3) (table_after (client_delete 3) tb'))
         = status.HTTP_404_NOT_FOUND.
Proof.
  split; [exact well_formed_catalog|].
  exact (created_product_is_deleted loaf catalog well_formed_catalog).
Defined.

(** X11.  [test_list_by_availablility]: on a store without rows, after
    the products of the factory are created, [GET /products?available=True]
    is answered 200 with as many entries as there are available products
    among the ones created. *)
Theorem created_available_products_are_counted
        (made : list Product.t) (tb : Product.table) :
  Product.rows tb = [] ->
  exists products tb' items,
    _create_products made tb = Some (products, tb')
    /\ answer (client_list [("available", "True")]) tb'
       = response.mk (response.Json (JArr items)) status.HTTP_200_OK ∅
    /\ length items = length (List.filter Product.available products).
Proof.
  intros Hempty. eexists _, _, _.
  split; [apply _create_products_numbered|].
  unfold answer, serve, client_list. rewrite list_products_run.
  cbn [db Product.rows]. rewrite Hempty. split; [reflexivity|].
  rewrite !length_fmap. unfold Product.find_by_availability.
  cbn [Product.rows app py_bool].
  rewrite (filter_ext (fun p => bool_decide (Product.available p = true))
                      Product.available); [reflexivity|].
  intros p. destruct (Product.available p); reflexivity.
Qed.

Lemma created_available_products_are_counted_witness :
  Product.rows Product.empty = []
  /\ exists products tb' items,
      _create_products [fedora; loaf] Product.empty = Some (products, tb')
      /\ answer (client_list [("available", "True")]) tb'
         = response.mk (response.Json (JArr items)) status.HTTP_200_OK ∅
      /\ length items = length (List.filter Product.available products).
Proof.
  split; [reflexivity|].
  exact (created_available_products_are_counted [fedora; loaf] Product.empty
           eq_refl).
Defined.

(** ** Renaming some of the created products *)

Section Renaming.

Implicit Types (tb : Product.table) (p q : Product.t) (i n : Z).

Lemma map_replace_absent i p (l : list Product.t) :
  Forall (fun r => Product.id r <> Some i) l ->
  List.map (fun r => if Product.has_id i r then p else r) l = l.
Proof.
  induction 1 as [|r l Hr _ IH]; simpl; [reflexivity|].
  rewrite IH. apply has_id_false in Hr. rewrite Hr. reflexivity.
Qed.

Lemma find_absent i (l l' : list Product.t) :
  Forall (fun r => Product.id r <> Some i) l ->
  List.find (Product.has_id i) (l ++ l') = List.find (Product.has_id i) l'.
Proof.
  induction 1 as [|r l Hr _ IH]; simpl; [reflexivity|].
  apply has_id_false in Hr. rewrite Hr. exact IH.
Qed.

(** In a list of rows without a repeated id, the rows around one row
    have other ids than that row. *)
Lemma others_have_other_ids i q (front back : list Product.t) :
  NoDup (List.map Product.id (front ++ q :: back)) ->
  Product.id q = Some i ->
  Forall (fun r => Product.id r <> Some i) front
  /\ Forall (fun r => Product.id r <> Some i) back.
Proof.
  intros Hnd Hq. rewrite List.map_app in Hnd. simpl in Hnd.
  apply NoDup_app in Hnd as (_ & Hfront & Hback).
  apply NoDup_cons in Hback as [Hback _]. split.
  - apply Forall_forall. intros r Hr Hid. apply (Hfront (Product.id r)).
    + apply list_elem_of_In, in_map, list_elem_of_In. exact Hr.
    + rewrite Hid, <- Hq. left.
  - apply Forall_forall. intros r Hr Hid. apply Hback.
    rewrite Hq, <- Hid. apply list_elem_of_In, in_map, list_elem_of_In. exact Hr.
Qed.

(** One [PUT] of the renamed product replaces its row and no other. *)
Lemma put_renamed_row (test_name : string) q i (front back : list Product.t) n :
  NoDup (List.map Product.id (front ++ q :: back)) ->
  Product.id q = Some i ->
  table_after
    (client_put i (JObj (Product.serialize (with_name test_name q))))
    {| Product.rows := (front ++ q :: back)%list; Product.next_id := n |}
  = {| Product.rows := (front ++ with_name test_name q :: back)%list;
       Product.next_id := n |}.
Proof.
  intros Hnd Hq.
  destruct (others_have_other_ids i q front back Hnd Hq) as [Hfront Hback].
  unfold table_after, serve, client_put.
  rewrite (update_products_run (json_request _) i _ eq_refl).
  cbn [db journal request.json_body json_request].
  assert (Hfound : Product.find i
                     {| Product.rows := (front ++ q :: back)%list;
                        Product.next_id := n |} = Some q).
  { unfold Product.find. cbn [Product.rows].
    rewrite (find_absent i front _ Hfront). simpl.
    apply has_id_true in Hq. rewrite Hq. reflexivity. }
  rewrite Hfound.
  rewrite (deserialize_target Product.blank q _ _
             (deserialize_blank_serialized (with_name test_name q))).
  cbn [with_id with_name Product.id Product.name Product.description
       Product.price Product.available Product.category].
  fold (with_name test_name q).
  unfold Product.update. cbn [with_name Product.id]. rewrite Hq.
  cbn [fst snd db Product.rows Product.next_id]. f_equal.
  rewrite List.map_app. cbn [List.map].
  rewrite (map_replace_absent i _ front Hfront).
  rewrite (map_replace_absent i _ back Hback).
  apply has_id_true in Hq. rewrite Hq. reflexivity.
Qed.

(** The loop renames the rows of the products it is given, where they
    stand, as long as each has an id and no id occurs twice. *)
Lemma put_renamed_rows (test_name : string) (l front back : list Product.t) n :
  NoDup (List.map Product.id (front ++ l ++ back)) ->
  Forall (fun q => is_Some (Product.id q)) l ->
  put_renamed test_name l
    {| Product.rows := (front ++ l ++ back)%list; Product.next_id := n |}
  = {| Product.rows := (front ++ List.map (with_name test_name) l ++ back)%list;
       Product.next_id := n |}.
Proof.
  revert front. induction l as [|q l IH]; intros front Hnd Hids.
  - reflexivity.
  - apply Forall_cons in Hids as [[i Hq] Hids].
    cbn [put_renamed with_name Product.id]. rewrite Hq.
    change ((q :: l) ++ back)%list with (q :: (l ++ back))%list.
    rewrite (put_renamed_row test_name q i front (l ++ back) n Hnd Hq).
    replace (front ++ with_name test_name q :: l ++ back)%list
      with ((front ++ [with_name test_name q]) ++ l ++ back)%list
      by (rewrite <- app_assoc; reflexivity).
    rewrite IH; [| |exact Hids].
    + rewrite <- app_assoc. reflexivity.
    + rewrite <- app_assoc. cbn [app].
      rewrite List.map_app in *. exact Hnd.
Qed.

Lemma numbered_ids n (made : list Product.t) q :
  In q (numbered n made) -> exists k, Product.id q = Some k /\ n <= k.
Proof.
  revert n. induction made as [|p made IH]; intros n; simpl; [intros []|].
  intros [<-|Hin].
  - exists n. split; [reflexivity|lia].
  - destruct (IH (n + 1) Hin) as (k & Hk & Hle). exists k. split; [exact Hk|lia].
Qed.

Lemma numbered_NoDup n (made : list Product.t) :
  NoDup (List.map Product.id (numbered n made)).
Proof.
  revert n. induction made as [|p made IH]; intros n; simpl; [constructor|].
  apply NoDup_cons. split; [|apply IH].
  intros Hin. apply list_elem_of_In, in_map_iff in Hin as (q & Hq & Hin).
  destruct (numbered_ids (n + 1) made q Hin) as (k & Hk & Hle).
  rewrite Hk in Hq. injection Hq as ->. lia.
Qed.

Lemma numbered_drop (k : nat) n (made : list Product.t) :
  drop k (numbered n made) = numbered (n + Z.of_nat k) (drop k made).
Proof.
  revert n made. induction k as [|k IH]; intros n made.
  - rewrite !drop_0, Z.add_0_r. reflexivity.
  - destruct made as [|p made]; [reflexivity|]. simpl. rewrite IH.
    f_equal. lia.
Qed.

Lemma filter_renamed (test_name : string) (l : list Product.t) :
  List.filter (fun p => bool_decide (Product.name p = test_name))
              (List.map (with_name test_name) l)
  = List.map (with_name test_name) l.
Proof.
  induction l as [|p l IH]; simpl; [reflexivity|].
  rewrite bool_decide_eq_true_2 by reflexivity. rewrite IH. reflexivity.
Qed.

End Renaming.

(** X12.  [test_list_by_name]: on a store without rows, after the
    products of the factory are created and the first [k] of them are
    put back under the test name, [GET /products?name=...] with that name
    is answered 200 with an array that holds, in some order, those [k]
    products and the later ones the factory had already given that name:
    it has [k] entries more than the factory gave that name among the
    later products, so exactly [k] when it gave none. *)
Theorem renamed_products_are_listed
        (made : list Product.t) (tb : Product.table)
        (test_name : string) (k : nat) :
  Product.rows tb = [] ->
  (k <= length made)%nat ->
  exists products tb' items,
    _create_products made tb = Some (products, tb')
    /\ answer (client_list [("name", test_name)])
              (put_renamed test_name (take k products) tb')
       = response.mk (response.Json (JArr items)) status.HTTP_200_OK ∅
    /\ Permutation items
         (JObj <$> (Product.serialize
                      <$> (List.map (with_name test_name) (take k products)
                           ++ List.filter
                                (fun p => bool_decide (Product.name p = test_name))
                                (drop k products))%list))
    /\ length items
       = (k + length (List.filter
                        (fun p => bool_decide (Product.name p = test_name))
                        (drop k made)))%nat.
Proof.
  intros Hempty Hk. eexists _, _, _.
  split; [apply _create_products_numbered|].
  set (products := numbered (Product.next_id tb) made).
  rewrite Hempty. cbn [app].
  assert (Hsplit : products = (take k products ++ drop k products)%list)
    by (symmetry; apply take_drop).
  assert (Hrows :
            put_renamed test_name (take k products)
              {| Product.rows := products;
                 Product.next_id :=
                   Product.next_id tb + Z.of_nat (length made) |}
            = {| Product.rows :=
                   (List.map (with_name test_name) (take k products)
                    ++ drop k products)%list;
                 Product.next_id :=
                   Product.next_id tb + Z.of_nat (length made) |}).
  { rewrite Hsplit at 2.
    apply (put_renamed_rows test_name (take k products) [] (drop k products)).
    - cbn [app]. rewrite <- Hsplit. apply numbered_NoDup.
    - apply Forall_forall. intros q Hq.
      apply list_elem_of_In in Hq.
      assert (Hin : In q products).
      { rewrite Hsplit. apply in_or_app. left. exact Hq. }
      destruct (numbered_ids _ _ q Hin) as (j & Hj & _). exists j. exact Hj. }
  rewrite Hrows. split; [|split].
  - unfold answer, serve, client_list. rewrite list_products_run.
    cbn [db Product.rows request.args get_request list_to_map].
    change (list_to_map [("name", test_name)] !! "name") with
      ((<["name" := test_name]> (∅ : gmap string string)) !! "name").
    rewrite lookup_insert_eq. cbn [fst]. unfold Product.find_by_name.
    cbn [Product.rows]. rewrite List.filter_app, filter_renamed. reflexivity.
  - reflexivity.
  - rewrite !length_fmap, length_app, length_map, length_take.
    unfold products. rewrite length_numbered, numbered_drop.
    rewrite (filter_numbered
               (fun p => bool_decide (Product.name p = test_name)))
      by (intros o q; reflexivity).
    lia.
Qed.

Lemma renamed_products_are_listed_witness :
  Product.rows Product.empty = []
  /\ (1 <= length [fedora; loaf])%nat
  /\ exists products tb' items,
      _create_products [fedora; loaf] Product.empty = Some (products, tb')
      /\ answer (client_list [("name", "specific name")])
                (put_renamed "specific name" (take 1 products) tb')
         = response.mk (response.Json (JArr items)) status.HTTP_200_OK ∅
      /\ length items = 1%nat.
Proof.
  split; [reflexivity|]. split; [simpl; lia|].
  destruct (renamed_products_are_listed [fedora; loaf] Product.empty
              "specific name" 1 eq_refl)
    as (products & tb' & items & Hmade & Hlist & _ & Hcount).
  - simpl. lia.
  - exists products, tb', items. split; [exact Hmade|]. split; [exact Hlist|].
    exact Hcount.
Defined.

(** ** A body that is no JSON text *)

(** X13.  A request with the JSON media type whose body is no JSON text
    is answered 400 by [POST /products] and by [PUT /products/<id>]: the
    body is read right after the media type check, before the store is
    reached, so the product is not looked up and nothing is written. *)
Theorem unparseable_body_400
        (request : request.t) (tb : Product.table) (i : Z) :
  has_content_type request "application/json" ->
  request.json_body request = None ->
  (response.status_code (answer (create_products request) tb)
   = status.HTTP_400_BAD_REQUEST
   /\ events (create_products request) tb = [ParsedBody]
   /\ table_after (create_products request) tb = tb)
  /\ (response.status_code (answer (update_products request i) tb)
      = status.HTTP_400_BAD_REQUEST
      /\ events (update_products request i) tb = [ParsedBody]
      /\ table_after (update_products request i) tb = tb).
Proof.
  intros Hct Hbody. unfold answer, events, table_after, serve.
  rewrite (create_products_run request _ Hct).
  rewrite (update_products_run request i _ Hct).
  simpl. rewrite Hbody.
  split; (split; [reflexivity|]; split; reflexivity).
Qed.

Lemma unparseable_body_400_witness :
  has_content_type broken_request "application/json"
  /\ request.json_body broken_request = None
  /\ response.status_code (answer (create_products broken_request) catalog)
     = status.HTTP_400_BAD_REQUEST
  /\ events (update_products broken_request 1) catalog = [ParsedBody].
Proof.
  split; [reflexivity|]. split; [reflexivity|].
  destruct (unparseable_body_400 broken_request catalog 1 eq_refl eq_refl)
    as [(Hstatus & _) (_ & Hevents & _)].
  split; [exact Hstatus|exact Hevents].
Defined.
